(** * Application: project lifecycle of the code-exploration application

    A shallow embedding of [Application] (the lifecycle orchestrator) and
    the properties of its message handlers.

    The class talks to collaborators whose code lives elsewhere (settings
    store, project, storage cache, main view, component manager, message
    queue, task scheduler).  Every call into one of them is recorded, in
    program order, in a trace; a call may raise a C++ exception, which
    the environment decides.  The member functions of [Application] are
    written in a monad that threads the environment, the state of the
    world and the outcome (returned / thrown / undefined behaviour). *)

From Stdlib Require Import ZArith Lia.
From stdpp Require Import base list strings.

Open Scope Z_scope.
Open Scope nat_scope.

(** ** Paths *)

(** Modelled from the spec: the class [FilePath] is not among the sources.
    A project path is the text of the path; [empty()] tests that text,
    [str()] gives it, and [operator==] / [operator!=] compare two paths by
    it. *)
Definition FilePath := string.

Definition FilePath_empty (p : FilePath) : bool := bool_decide (p = "").

Definition FilePath_str (p : FilePath) : string := p.

(** ** The recent-projects vector

    The statements of [Application::updateRecentProjects] that work on the
    local [std::vector<FilePath> recentProjects]. *)

Module RecentProjects.

(** [std::find(begin, end, p)]: the position of the first element equal
    to [p]; the length of the vector stands for [end()]. *)
Fixpoint std_find (l : list FilePath) (p : FilePath) : nat :=
  match l with
  | [] => 0
  | q :: l' => if decide (q = p) then 0 else S (std_find l' p)
  end.

(** [v.erase(it)] for a dereferenceable iterator. *)
Definition erase (l : list FilePath) (it : nat) : list FilePath := delete it l.

(** [v.insert(v.begin(), p)]. *)
Definition insert_begin (p : FilePath) (l : list FilePath) : list FilePath := p :: l.

(** [v.pop_back()]. *)
Definition pop_back (l : list FilePath) : list FilePath := removelast l.

(** [while (v.size() > 7) v.pop_back();] with the number of iterations
    bounded by [fuel]. *)
Fixpoint pop_back_while (fuel : nat) (l : list FilePath) : list FilePath :=
  match fuel with
  | 0 => l
  | S fuel' => if 7 <? length l then pop_back_while fuel' (pop_back l) else l
  end.

(** The lines between [getRecentProjects] and [setRecentProjects]. *)
Definition update (p : FilePath) (recentProjects : list FilePath) : list FilePath :=
  let recentProjects1 :=
    if negb (length recentProjects =? 0) then
      let it := std_find recentProjects p in
      if negb (it =? length recentProjects) then erase recentProjects it
      else recentProjects
    else recentProjects in
  let recentProjects2 := insert_begin p recentProjects1 in
  pop_back_while (length recentProjects2) recentProjects2.

(** Adding a sequence of paths one after the other, first path first. *)
Definition update_all (ps : list FilePath) (l : list FilePath) : list FilePath :=
  foldl (λ acc p, update p acc) l ps.

(** The vector without the first occurrence of [p]. *)
Fixpoint remove_first (p : FilePath) (l : list FilePath) : list FilePath :=
  match l with
  | [] => []
  | q :: l' => if decide (q = p) then l' else q :: remove_first p l'
  end.

End RecentProjects.

(** ** Messages *)

(** Modelled from the spec: the headers of the message classes are not
    among the sources.  A status message carries a text, an error flag and
    a loading flag, [MessageStatus(status, isError = false, showLoader =
    false)]; the other messages carry the fields that [Application] reads
    from them. *)
Record MessageStatus := {
  status : string;
  isError : bool;
  showLoader : bool;
}.

Record MessageLoadProject := {
  projectSettingsFilePath : string;
  forceRefresh : bool;
}.

Record MessageRefresh := {
  uiOnly : bool;
  all : bool;
  reloadSettings : bool;
}.

(** Modelled from the spec: the header of [MessageRefresh] is not among the
    sources.  The message carries the fields [all], [uiOnly] and
    [reloadSettings]; a fresh message asks for a plain refresh that reloads
    the settings, [refreshUiOnly] sets [uiOnly] and [keepSettings] clears
    [reloadSettings]. *)
Definition MessageRefresh_new : MessageRefresh :=
  {| uiOnly := false; all := false; reloadSettings := true |}.

Definition refreshUiOnly (m : MessageRefresh) : MessageRefresh :=
  {| uiOnly := true; all := all m; reloadSettings := reloadSettings m |}.

Definition keepSettings (m : MessageRefresh) : MessageRefresh :=
  {| uiOnly := uiOnly m; all := all m; reloadSettings := false |}.

Record MessageSwitchColorScheme := {
  colorSchemePath : FilePath;
}.

Inductive Message :=
| MsgStatus (m : MessageStatus)
| MsgLoadProject (m : MessageLoadProject)
| MsgRefresh (m : MessageRefresh)
| MsgSwitchColorScheme (m : MessageSwitchColorScheme)
| MsgFinishedParsing
| MsgActivateWindow
| MsgShowStartScreen
| MsgDispatchWhenLicenseValid (m : Message).

(** ** Calls into the collaborators *)

Inductive Call :=
| Version_setApplicationVersion
| ApplicationSettings_load
| ApplicationSettings_save
| ColorScheme_load (path : FilePath)
| GraphViewStyle_loadStyleSettings
| TaskScheduler_getInstance
| MessageQueue_getInstance
| LicenseChecker_createInstance
| ComponentManager_create
| ComponentManager_setup
| ComponentManager_clearComponents
| ComponentManager_refreshViews
| ViewFactory_createMainView
| NetworkFactory_createIDECommunicationController
| MainView_setTitle (title : string)
| MainView_loadLayout
| MainView_saveLayout
| MainView_hideStartScreen
| MainView_updateRecentProjectMenu
| MainView_activateWindow
| MainView_confirm (message : string) (options : list string)
| StorageCache_make_shared
| StorageCache_clear
| Project_create (path : FilePath)
| Project_refresh
| Project_forceRefresh
| Project_logStats
| TaskScheduler_startSchedulerLoopThreaded
| TaskScheduler_stopSchedulerLoop
| MessageQueue_setSendMessagesAsTasks (b : bool)
| MessageQueue_startMessageLoopThreaded
| MessageQueue_stopMessageLoop
| Message_dispatch (m : Message)
| LOG_ERROR (text : string)
| TRACE (name : string).

(** The calls that stay inside the messaging and logging layer; all the
    others go to a collaborator. *)
Definition is_messaging (c : Call) : bool :=
  match c with
  | Message_dispatch _ | LOG_ERROR _ | TRACE _ => true
  | _ => false
  end.

Definition is_error_status (c : Call) : bool :=
  match c with
  | Message_dispatch (MsgStatus m) => isError m
  | _ => false
  end.

Definition is_status (c : Call) : bool :=
  match c with
  | Message_dispatch (MsgStatus _) => true
  | _ => false
  end.

Definition is_project_create (c : Call) : bool :=
  match c with
  | Project_create _ => true
  | _ => false
  end.

Definition is_project_refresh (c : Call) : bool :=
  match c with
  | Project_refresh | Project_forceRefresh => true
  | _ => false
  end.

Definition is_confirm (c : Call) : bool :=
  match c with
  | MainView_confirm _ _ => true
  | _ => false
  end.

Definition is_settings_save (c : Call) : bool :=
  match c with
  | ApplicationSettings_save => true
  | _ => false
  end.

(** How often a kind of call occurs in a trace. *)
Definition count (f : Call → bool) (tr : list Call) : nat :=
  length (filter (λ c, f c = true) tr).

(** ** State *)

(** Modelled from the spec: the class [Project] is not among the sources.
    [Project::create(path, storageCache)] gives a project whose
    [getProjectSettingsFilePath()] is [path]. *)
Record Project := {
  getProjectSettingsFilePath : FilePath;
}.

(** Modelled from the spec: the class [ApplicationSettings] is not among the
    sources.  The settings store holds the recent projects and the path of
    the colour scheme; [load] replaces what it holds by the content of the
    settings file and [save] writes what it holds to that file. *)
Record ApplicationSettings := {
  getRecentProjects : list FilePath;
  getColorSchemePath : FilePath;
}.

(** The data members of [Application].  [m_project] is a shared pointer,
    [None] when null.  [createInstance], the only place that builds an
    [Application], sets [m_mainView] and [m_componentManager] exactly when
    it sets [m_hasGUI]; [m_storageCache] is always set. *)
Record Application := {
  m_hasGUI : bool;
  m_project : option Project;
}.

Record World := {
  instance : Application;
  appSettings : ApplicationSettings;
  settingsFile : ApplicationSettings;
  trace : list Call;
}.

(** What the code cannot see from inside: the build flavour, the file-name
    part of a path, which call raises an exception, what the user answers
    to a dialog, and whether assigning to [s_instance] releases the last
    reference to an earlier [Application] (there is one, and no shared
    pointer handed out by [getInstance] is held elsewhere); the last three
    may depend on the calls made so far. *)
Record Env := {
  isTrial : bool;
  fileName : FilePath → string;
  throws : list Call → Call → bool;
  confirm_answer : list Call → Z;
  releases_previous : list Call → bool;
}.

(** ** The monad of member functions *)

Inductive Outcome (A : Type) :=
| Returned (a : A)
| Thrown
| Undefined.
Arguments Returned {A} a.
Arguments Thrown {A}.
Arguments Undefined {A}.

Definition M (A : Type) : Type := Env → World → Outcome A * World.

#[global] Instance M_ret : MRet M := λ A a _ w, (Returned a, w).

#[global] Instance M_bind : MBind M := λ A B f m e w,
  match m e w with
  | (Returned a, w') => f a e w'
  | (Thrown, w') => (Thrown, w')
  | (Undefined, w') => (Undefined, w')
  end.

(** [try { body } catch (...) { handler }]. *)
Definition try_catch {A} (body handler : M A) : M A := λ e w,
  match body e w with
  | (Thrown, w') => handler e w'
  | r => r
  end.

(** Dereferencing a null pointer. *)
Definition undefined {A} : M A := λ _ w, (Undefined, w).

Definition ask : M Env := λ e w, (Returned e, w).

Definition get : M World := λ _ w, (Returned w, w).

Definition record (c : Call) (w : World) : World :=
  {| instance := instance w; appSettings := appSettings w;
     settingsFile := settingsFile w; trace := trace w ++ [c] |}.

(** A call is recorded and then returns or raises. *)
Definition call (c : Call) : M unit := λ e w,
  (if throws e (trace w) c then Thrown else Returned tt, record c w).

Definition set_instance (a : Application) : M unit := λ _ w,
  (Returned tt,
   {| instance := a; appSettings := appSettings w;
      settingsFile := settingsFile w; trace := trace w |}).

Definition set_appSettings (s : ApplicationSettings) : M unit := λ _ w,
  (Returned tt,
   {| instance := instance w; appSettings := s;
      settingsFile := settingsFile w; trace := trace w |}).

Definition set_settingsFile (s : ApplicationSettings) : M unit := λ _ w,
  (Returned tt,
   {| instance := instance w; appSettings := appSettings w;
      settingsFile := s; trace := trace w |}).

(** The events a run added to the trace. *)
Definition emitted (w w' : World) : list Call := drop (length (trace w)) (trace w').

(** ** The settings store and the other collaborators *)

Definition ApplicationSettings_getInstance : M ApplicationSettings :=
  w ← get; mret (appSettings w).

Definition settings_load : M unit :=
  call ApplicationSettings_load;;
  w ← get; set_appSettings (settingsFile w).

Definition settings_save : M unit :=
  call ApplicationSettings_save;;
  w ← get; set_settingsFile (appSettings w).

Definition setRecentProjects (recentProjects : list FilePath) : M unit :=
  settings ← ApplicationSettings_getInstance;
  set_appSettings {| getRecentProjects := recentProjects;
                     getColorSchemePath := getColorSchemePath settings |}.

Definition MessageStatus_dispatch (text : string) (isError showLoader : bool) : M unit :=
  call (Message_dispatch (MsgStatus {| status := text; isError := isError; showLoader := showLoader |})).

Definition confirm (message : string) (options : list string) : M Z :=
  w ← get; e ← ask;
  call (MainView_confirm message options);;
  mret (confirm_answer e (trace w)).

Definition this : M Application := w ← get; mret (instance w).

Definition set_m_project (p : option Project) : M unit :=
  a ← this; set_instance {| m_hasGUI := m_hasGUI a; m_project := p |}.

Definition Project_create_ (path : FilePath) : M Project :=
  call (Project_create path);;
  mret {| getProjectSettingsFilePath := path |}.

(** ** Application *)

Definition loadStyle (colorSchemePath : FilePath) : M unit :=
  call (ColorScheme_load colorSchemePath);;
  call GraphViewStyle_loadStyleSettings.

Definition loadSettings : M unit :=
  settings_load;;
  settings ← ApplicationSettings_getInstance;
  loadStyle (getColorSchemePath settings).

Definition startMessagingAndScheduling : M unit :=
  call TaskScheduler_startSchedulerLoopThreaded;;
  call (MessageQueue_setSendMessagesAsTasks true);;
  call MessageQueue_startMessageLoopThreaded.

(** [Application::~Application]. *)
Definition destroy : M unit :=
  call MessageQueue_stopMessageLoop;;
  call TaskScheduler_stopSchedulerLoop;;
  a ← this;
  if m_hasGUI a then call MainView_saveLayout else mret tt.

(** [Application::createInstance]; the two factories are given by whether
    they are non-null.  The constructor of the new [Application] runs
    [LicenseChecker::createInstance]; the assignment to [s_instance] then
    releases the earlier application object, whose destructor runs when
    this was the last reference to it. *)
Definition createInstance (viewFactory networkFactory : bool) : M unit :=
  call Version_setApplicationVersion;;
  loadSettings;;
  call TaskScheduler_getInstance;;
  call MessageQueue_getInstance;;
  let hasGui := viewFactory in
  call LicenseChecker_createInstance;;
  e ← ask; w ← get;
  (if releases_previous e (trace w) then destroy else mret tt);;
  set_instance {| m_hasGUI := hasGui; m_project := None |};;
  call StorageCache_make_shared;;
  (if viewFactory then
     call ComponentManager_create;;
     call ViewFactory_createMainView;;
     call (MainView_setTitle "Coati");;
     call (Message_dispatch (MsgDispatchWhenLicenseValid MsgShowStartScreen));;
     call ComponentManager_setup;;
     call MainView_loadLayout
   else mret tt);;
  (if networkFactory then
     call NetworkFactory_createIDECommunicationController
   else mret tt);;
  startMessagingAndScheduling.

Definition getCurrentProject : M (option Project) :=
  a ← this; mret (m_project a).

Definition hasGUI : M bool :=
  a ← this; mret (m_hasGUI a).

(** [m_mainView] is null without a GUI. *)
Definition mainView (c : Call) : M unit :=
  a ← this;
  if m_hasGUI a then call c else undefined.

Definition handleDialog (message : string) (options : list string) : M Z :=
  a ← this;
  if m_hasGUI a then confirm message options else undefined.

Definition setTitle (title : string) : M unit :=
  mainView (MainView_setTitle title).

Definition updateRecentProjects (projectSettingsFilePath : FilePath) : M unit :=
  a ← this;
  if m_hasGUI a then
    appSettings ← ApplicationSettings_getInstance;
    let recentProjects := getRecentProjects appSettings in
    let recentProjects := RecentProjects.update projectSettingsFilePath recentProjects in
    setRecentProjects recentProjects;;
    settings_save;;
    call MainView_updateRecentProjectMenu
  else mret tt.

Definition loadProject (projectSettingsFilePath : FilePath) : M unit :=
  a ← this;
  if m_hasGUI a then call ComponentManager_clearComponents else mret tt.

(** The block guarded by [try] in [createAndLoadProject]. *)
Definition createAndLoadProject_try (projectSettingsFilePath : FilePath) : M unit :=
  updateRecentProjects projectSettingsFilePath;;
  call StorageCache_clear;;
  project ← Project_create_ projectSettingsFilePath;
  set_m_project (Some project);;
  loadProject projectSettingsFilePath;;
  a ← this;
  if m_hasGUI a then
    e ← ask;
    setTitle ("Coati - " +:+ fileName e projectSettingsFilePath);;
    call MainView_hideStartScreen;;
    call ComponentManager_refreshViews
  else mret tt.

(** The handler of [catch (...)] in [createAndLoadProject]. *)
Definition createAndLoadProject_catch : M unit :=
  call (LOG_ERROR "Failed to load project.");;
  MessageStatus_dispatch "Failed to load project." true false.

Definition createAndLoadProject (projectSettingsFilePath : FilePath) : M unit :=
  MessageStatus_dispatch ("Loading Project: " +:+ FilePath_str projectSettingsFilePath) false true;;
  try_catch (createAndLoadProject_try projectSettingsFilePath) createAndLoadProject_catch.

Definition refreshProject (force : bool) : M unit :=
  MessageStatus_dispatch "Refreshing Project" false false;;
  call StorageCache_clear;;
  a ← this;
  (if m_hasGUI a then call ComponentManager_refreshViews else mret tt);;
  match m_project a with
  | None => undefined
  | Some _ => if force then call Project_forceRefresh else call Project_refresh
  end.

Definition handleMessage_ActivateWindow : M unit :=
  a ← this;
  if m_hasGUI a then call MainView_activateWindow else mret tt.

Definition handleMessage_FinishedParsing : M unit :=
  a ← this;
  match m_project a with
  | None => undefined
  | Some _ =>
      call Project_logStats;;
      if m_hasGUI a then
        call (Message_dispatch (MsgRefresh (refreshUiOnly MessageRefresh_new)))
      else mret tt
  end.

(** [!m_project || path != m_project->getProjectSettingsFilePath()]. *)
Definition is_other_project (a : Application) (path : FilePath) : bool :=
  match m_project a with
  | None => true
  | Some project => negb (bool_decide (path = getProjectSettingsFilePath project))
  end.

Definition reindex_question : string :=
  "Some settings were changed, the project needs to be fully reindexed. " +:+
  "Do you want to reindex the project?".

(** The block of [if (m_hasGUI)] inside the force-refresh branch; the
    result says whether the handler has returned from inside it. *)
Definition confirm_reindex (projectSettingsFilePath : FilePath) : M bool :=
  let options := [] ++ ["Yes"] ++ ["No"] in
  result ← confirm reindex_question options;
  if (result =? 1)%Z then
    a ← this;
    if is_other_project a projectSettingsFilePath then
      createAndLoadProject projectSettingsFilePath;;
      mret true
    else mret false
  else mret false.

Definition handleMessage_LoadProject (message : MessageLoadProject) : M unit :=
  call (TRACE "app load project");;
  loadSettings;;
  let projectSettingsFilePath : FilePath := projectSettingsFilePath message in
  if FilePath_empty projectSettingsFilePath then mret tt
  else
    e ← ask;
    if forceRefresh message && negb (isTrial e) then
      a ← this;
      returned ← (if m_hasGUI a then confirm_reindex projectSettingsFilePath else mret false);
      if returned : bool then mret tt
      else refreshProject true
    else
      a ← this;
      if is_other_project a projectSettingsFilePath then
        createAndLoadProject projectSettingsFilePath
      else mret tt.

Definition handleMessage_Refresh (message : MessageRefresh) : M unit :=
  call (TRACE "app refresh");;
  (if reloadSettings message then loadSettings else mret tt);;
  if uiOnly message then
    a ← this;
    if m_hasGUI a then call ComponentManager_refreshViews else mret tt
  else refreshProject (all message).

Definition handleMessage_SwitchColorScheme (message : MessageSwitchColorScheme) : M unit :=
  loadStyle (colorSchemePath message);;
  call (Message_dispatch (MsgRefresh (keepSettings (refreshUiOnly MessageRefresh_new)))).

(** The overloads of [Application::handleMessage]; the application listens
    to no other kind of message. *)
Definition handleMessage (message : Message) : M unit :=
  match message with
  | MsgActivateWindow => handleMessage_ActivateWindow
  | MsgFinishedParsing => handleMessage_FinishedParsing
  | MsgLoadProject m => handleMessage_LoadProject m
  | MsgRefresh m => handleMessage_Refresh m
  | MsgSwitchColorScheme m => handleMessage_SwitchColorScheme m
  | _ => mret tt
  end.

(** Projections of a run. *)
Definition outcome {A} (m : M A) (e : Env) (w : World) : Outcome A := fst (m e w).
Definition final {A} (m : M A) (e : Env) (w : World) : World := snd (m e w).
Definition events {A} (m : M A) (e : Env) (w : World) : list Call :=
  emitted w (final m e w).

(** The project states of the lifecycle description. *)
Inductive ProjectState := NoProject | Loading | Loaded | Refreshing | Failed.

(** Environments in which only calls into collaborators raise. *)
Definition collaborator_faults_only (e : Env) : Prop :=
  ∀ tr c, is_messaging c = true → throws e tr c = false.

(** Environments in which nothing raises. *)
Definition fault_free (e : Env) : Prop :=
  ∀ tr c, throws e tr c = false.

(** ** Concrete environments and worlds *)

(** Nothing raises, the user picks the option with index [answer]; an
    earlier application object is released when [s_instance] is
    reassigned. *)
Definition env_answer (trial : bool) (answer : Z) : Env :=
  {| isTrial := trial; fileName := λ p, p;
     throws := λ _ _, false; confirm_answer := λ _, answer;
     releases_previous := λ _, true |}.

Definition env_ok : Env := env_answer false 0.

(** The calls selected by [bad] raise, whenever they are made. *)
Definition env_throwing (bad : Call → bool) : Env :=
  {| isTrial := false; fileName := λ p, p;
     throws := λ _ c, bad c; confirm_answer := λ _, 0%Z;
     releases_previous := λ _, true |}.

Definition settings0 (recentProjects : list FilePath) : ApplicationSettings :=
  {| getRecentProjects := recentProjects; getColorSchemePath := "scheme.xml" |}.

(** A running application: with or without GUI, with a current project or
    none, the settings in memory as they are in the settings file. *)
Definition world0 (gui : bool) (project : option Project) (recentProjects : list FilePath) : World :=
  {| instance := {| m_hasGUI := gui; m_project := project |};
     appSettings := settings0 recentProjects;
     settingsFile := settings0 recentProjects;
     trace := [] |}.

Definition project_at (path : FilePath) : Project :=
  {| getProjectSettingsFilePath := path |}.

(** ** Expected call sequences *)

(** The message that [SwitchColorScheme] sends: UI only, settings kept. *)
Definition ui_refresh_notification : Message :=
  MsgRefresh {| uiOnly := true; all := false; reloadSettings := false |}.


Definition startup_calls : list Call :=
  [TaskScheduler_startSchedulerLoopThreaded;
   MessageQueue_setSendMessagesAsTasks true;
   MessageQueue_startMessageLoopThreaded].

Definition shutdown_calls (gui : bool) : list Call :=
  [MessageQueue_stopMessageLoop; TaskScheduler_stopSchedulerLoop] ++
  (if gui then [MainView_saveLayout] else []).


Definition is_force_refresh (c : Call) : bool :=
  match c with
  | Project_forceRefresh => true
  | _ => false
  end.

Definition is_menu_update (c : Call) : bool :=
  match c with
  | MainView_updateRecentProjectMenu => true
  | _ => false
  end.

(** The first two statements of the [LoadProject] handler. *)
Definition reload : M unit :=
  call (TRACE "app load project");; loadSettings.

(** ** Faults and sequences *)

(** How many of the calls [evs], made after the calls [tr], the environment
    [e] makes raise. *)
Fixpoint raised (e : Env) (tr evs : list Call) : nat :=
  match evs with
  | [] => 0
  | c :: evs' => (if throws e tr c then 1 else 0) + raised e (tr ++ [c]) evs'
  end.

(** [updateRecentProjects] for a sequence of paths, first path first. *)
Fixpoint updateRecentProjects_each (paths : list FilePath) : M unit :=
  match paths with
  | [] => mret tt
  | p :: paths' => updateRecentProjects p;; updateRecentProjects_each paths'
  end.

Definition failed_status : Call :=
  Message_dispatch (MsgStatus {| status := "Failed to load project.";
                                 isError := true; showLoader := false |}).

Definition is_refresh_views (c : Call) : bool :=
  match c with
  | ComponentManager_refreshViews => true
  | _ => false
  end.

Definition is_clear_components (c : Call) : bool :=
  match c with
  | ComponentManager_clearComponents => true
  | _ => false
  end.

(** [guarded_by f g seen evs]: every call of kind [g] in [evs] comes after a
    call of kind [f] ([seen] says whether one was made before [evs]). *)
Fixpoint guarded_by (f g : Call → bool) (seen : bool) (evs : list Call) : bool :=
  match evs with
  | [] => true
  | c :: evs' => (negb (g c) || seen) && guarded_by f g (seen || f c) evs'
  end.


(** ** Reference notions for further properties *)

(** The distinct entries of a list, each at its first occurrence. *)
Fixpoint first_occurrences (l : list FilePath) : list FilePath :=
  match l with
  | [] => []
  | p :: l' => p :: filter (λ q, q ≠ p) (first_occurrences l')
  end.

(** The calls into the user interface: main view, component manager and
    view factory. *)
Definition is_ui_call (c : Call) : bool :=
  match c with
  | ComponentManager_create | ComponentManager_setup
  | ComponentManager_clearComponents | ComponentManager_refreshViews
  | ViewFactory_createMainView
  | MainView_setTitle _ | MainView_loadLayout | MainView_saveLayout
  | MainView_hideStartScreen | MainView_updateRecentProjectMenu
  | MainView_activateWindow | MainView_confirm _ _ => true
  | _ => false
  end.

Definition is_cache_clear (c : Call) : bool :=
  match c with
  | StorageCache_clear => true
  | _ => false
  end.

Definition is_settings_load (c : Call) : bool :=
  match c with
  | ApplicationSettings_load => true
  | _ => false
  end.

Definition is_loop_start (c : Call) : bool :=
  match c with
  | TaskScheduler_startSchedulerLoopThreaded
  | MessageQueue_startMessageLoopThreaded => true
  | _ => false
  end.

Definition is_presentation (c : Call) : bool :=
  match c with
  | ComponentManager_clearComponents | ComponentManager_refreshViews
  | MainView_setTitle _ | MainView_hideStartScreen => true
  | _ => false
  end.

Definition is_load_project (message : Message) : bool :=
  match message with
  | MsgLoadProject _ => true
  | _ => false
  end.


(** ** Call sequences of runs in which nothing raises *)

(** Whether [evs], made after the calls [tr], holds a call of kind [f] that
    returned in the environment [e]. *)
Fixpoint returned_call (f : Call → bool) (e : Env) (tr evs : list Call) : bool :=
  match evs with
  | [] => false
  | c :: evs' =>
      (f c && negb (throws e tr c)) || returned_call f e (tr ++ [c]) evs'
  end.

Definition loading_status (path : FilePath) : Call :=
  Message_dispatch (MsgStatus {| status := "Loading Project: " +:+ FilePath_str path;
                                 isError := false; showLoader := true |}).


(** The calls of [loadSettings] from the world [w]. *)
Definition loadSettings_calls (w : World) : list Call :=
  [ApplicationSettings_load;
   ColorScheme_load (getColorSchemePath (settingsFile w));
   GraphViewStyle_loadStyleSettings].



(** The calls of [createAndLoadProject path]. *)
Definition load_calls (e : Env) (gui : bool) (path : FilePath) : list Call :=
  [loading_status path] ++
  (if gui then [ApplicationSettings_save; MainView_updateRecentProjectMenu] else []) ++
  [StorageCache_clear; Project_create path] ++
  (if gui
   then [ComponentManager_clearComponents;
         MainView_setTitle ("Coati - " +:+ fileName e path);
         MainView_hideStartScreen; ComponentManager_refreshViews]
   else []).

Definition is_save_layout (c : Call) : bool :=
  match c with
  | MainView_saveLayout => true
  | _ => false
  end.

Definition is_loop_stop (c : Call) : bool :=
  match c with
  | MessageQueue_stopMessageLoop | TaskScheduler_stopSchedulerLoop => true
  | _ => false
  end.

(** The calls of [createInstance] up to the assignment to [s_instance],
    from the world [w]. *)
Definition before_assignment (w : World) : list Call :=
  [Version_setApplicationVersion] ++ loadSettings_calls w ++
  [TaskScheduler_getInstance; MessageQueue_getInstance; LicenseChecker_createInstance].

(** ** Symbolic execution of runs *)

(** [wp e m w Φ]: the run of [m] from [w] ends with an outcome and a world
    that satisfy [Φ]. *)
Definition wp {A} (e : Env) (m : M A) (w : World) (Φ : Outcome A → World → Prop) : Prop :=
  Φ (outcome m e w) (final m e w).

(** Continuation of a run after its first part. *)
Definition wp_then {A B} (e : Env) (f : A → M B) (Φ : Outcome B → World → Prop)
    (o : Outcome A) (w : World) : Prop :=
  match o with
  | Returned a => wp e (f a) w Φ
  | Thrown => Φ Thrown w
  | Undefined => Φ Undefined w
  end.

(** Continuation of the guarded block of a [try]. *)
Definition wp_caught {A} (e : Env) (handler : M A) (Φ : Outcome A → World → Prop)
    (o : Outcome A) (w : World) : Prop :=
  match o with
  | Thrown => wp e handler w Φ
  | _ => Φ o w
  end.

(** Unfolding of the member functions down to the primitive operations. *)
Ltac unfold_members :=
  unfold reload, handleMessage, handleMessage_SwitchColorScheme,
    handleMessage_Refresh, handleMessage_LoadProject, confirm_reindex,
    handleMessage_FinishedParsing, handleMessage_ActivateWindow,
    refreshProject, createAndLoadProject, createAndLoadProject_catch,
    createAndLoadProject_try, loadProject, updateRecentProjects, setTitle,
    handleDialog, mainView, hasGUI, getCurrentProject, destroy, createInstance,
    startMessagingAndScheduling, loadSettings, loadStyle, Project_create_,
    set_m_project, this, confirm, MessageStatus_dispatch, setRecentProjects,
    settings_save, settings_load, ApplicationSettings_getInstance.

Ltac world_simpl :=
  cbn [instance appSettings settingsFile trace record m_hasGUI m_project
       getRecentProjects getColorSchemePath getProjectSettingsFilePath
       projectSettingsFilePath forceRefresh uiOnly all reloadSettings
       colorSchemePath wp_then wp_caught fst snd andb negb] in *.

(** * Properties *)

(** ** The recent-projects vector *)

Section recent_projects_facts.
Import RecentProjects.
Implicit Types (p q : FilePath) (l : list FilePath).

Lemma std_find_le l p : std_find l p ≤ length l.
Proof. induction l as [|q l IH]; simpl; [lia|]. case_decide; lia. Qed.

Lemma std_find_end l p : std_find l p = length l ↔ p ∉ l.
Proof.
  induction l as [|q l IH]; simpl.
  - split; [intros _; apply not_elem_of_nil | done].
  - case_decide as Hq.
    + subst q. split; [lia | intros H; destruct H; left].
    + rewrite not_elem_of_cons. split.
      * intros H. split; [congruence | apply IH; lia].
      * intros [_ H]. apply IH in H. lia.
Qed.

Lemma erase_std_find l p : p ∈ l → erase l (std_find l p) = remove_first p l.
Proof.
  unfold erase. induction l as [|q l IH]; simpl.
  - intros H. by apply elem_of_nil in H.
  - intros H. case_decide as Hq; [done|].
    simpl. f_equal. apply IH. apply elem_of_cons in H as [H|H]; [congruence | done].
Qed.

Lemma remove_first_notin l p : p ∉ l → remove_first p l = l.
Proof.
  induction l as [|q l IH]; simpl; [done|].
  rewrite not_elem_of_cons. intros [Hq Hl].
  case_decide; [congruence|]. by rewrite IH.
Qed.

Lemma pop_back_take l : pop_back l = take (length l - 1) l.
Proof.
  unfold pop_back. induction l as [|q l IH]; [done|].
  destruct l as [|q' l]; [done|].
  change (removelast (q :: q' :: l)) with (q :: removelast (q' :: l)).
  rewrite IH. simpl. by rewrite Nat.sub_0_r.
Qed.

(** The loop stops, with enough fuel, on the first seven entries. *)
Lemma pop_back_while_take fuel l :
  length l ≤ fuel → pop_back_while fuel l = take 7 l.
Proof.
  revert l. induction fuel as [|fuel IH]; intros l Hl; simpl.
  - destruct l; [done | simpl in Hl; lia].
  - destruct (Nat.ltb_spec 7 (length l)) as [Hlt|Hge].
    + rewrite IH.
      * rewrite pop_back_take, take_take. f_equal. lia.
      * rewrite pop_back_take, length_take. lia.
    + by rewrite take_ge by lia.
Qed.

(** More fuel than the length of the vector changes nothing. *)
Lemma pop_back_while_fuel fuel fuel' l :
  length l ≤ fuel → length l ≤ fuel' → pop_back_while fuel l = pop_back_while fuel' l.
Proof. intros. by rewrite !pop_back_while_take. Qed.

(** What [update] computes. *)
Lemma update_eq p l : update p l = p :: take 6 (remove_first p l).
Proof.
  unfold update, insert_begin.
  rewrite pop_back_while_take by done.
  change (take 7 (p :: ?x)) with (p :: take 6 x).
  f_equal. f_equal.
  destruct l as [|q l]; [done|].
  change (negb (length (q :: l) =? 0)) with true. cbv iota.
  destruct (Nat.eqb_spec (std_find (q :: l) p) (length (q :: l))) as [He|Hne]; simpl negb; cbv iota.
  - apply std_find_end in He. by rewrite remove_first_notin.
  - apply erase_std_find. destruct (decide (p ∈ q :: l)) as [|Hn]; [done|].
    by apply std_find_end in Hn.
Qed.

Lemma remove_first_sublist p l : remove_first p l `sublist_of` l.
Proof.
  induction l as [|q l IH]; simpl; [done|].
  case_decide; [by apply sublist_cons | by apply sublist_skip].
Qed.

Lemma remove_first_length p l : p ∈ l → S (length (remove_first p l)) = length l.
Proof.
  induction l as [|q l IH]; simpl.
  - intros H. by apply elem_of_nil in H.
  - intros H. case_decide as Hq; [done|]. simpl. f_equal. apply IH.
    apply elem_of_cons in H as [H|H]; [congruence | done].
Qed.

Lemma filter_other_notin p l : p ∉ l → filter (λ q, q ≠ p) l = l.
Proof.
  induction l as [|q l IH]; [done|].
  rewrite not_elem_of_cons. intros [Hq Hl].
  rewrite filter_cons_True by congruence. by rewrite IH.
Qed.

(** On a vector without duplicates, erasing the first occurrence erases
    every occurrence. *)
Lemma remove_first_NoDup p l : NoDup l → remove_first p l = filter (λ q, q ≠ p) l.
Proof.
  induction 1 as [|q l Hq Hl IH]; simpl; [done|].
  case_decide as Hqp.
  - subst q. rewrite filter_cons_False by (intros H; by apply H).
    by rewrite filter_other_notin.
  - rewrite filter_cons_True by done. by rewrite IH.
Qed.

Lemma update_length p l : length (update p l) ≤ 7.
Proof. rewrite update_eq. simpl. rewrite length_take. lia. Qed.

Lemma update_length_readd p l : p ∈ l → length (update p l) ≤ length l.
Proof.
  intros H. rewrite update_eq. simpl. rewrite length_take.
  apply remove_first_length in H. lia.
Qed.

Lemma update_NoDup p l : NoDup l → NoDup (update p l).
Proof.
  intros Hl. rewrite update_eq, remove_first_NoDup by done.
  apply NoDup_cons. split.
  - intros H. eapply elem_of_sublist in H; [|apply sublist_take].
    apply list_elem_of_filter in H as [H _]. by apply H.
  - eapply sublist_NoDup; [|apply sublist_take]. by apply NoDup_filter.
Qed.

End recent_projects_facts.

(** ** Reasoning about runs *)

Lemma emitted_app w w' evs : trace w' = trace w ++ evs → emitted w w' = evs.
Proof. unfold emitted. intros ->. by rewrite drop_app_length. Qed.

Lemma count_app f tr1 tr2 : count f (tr1 ++ tr2) = count f tr1 + count f tr2.
Proof. unfold count. by rewrite filter_app, length_app. Qed.

Section wp_rules.
Context {A B : Type}.
Implicit Types (e : Env) (w : World).

Lemma wp_intro e (m : M A) w Φ : wp e m w Φ → Φ (outcome m e w) (final m e w).
Proof. done. Qed.

Lemma wp_ret e (a : A) w Φ : Φ (Returned a) w → wp e (mret a) w Φ.
Proof. done. Qed.

Lemma wp_bind e (m : M A) (f : A → M B) w Φ :
  wp e m w (wp_then e f Φ) → wp e (m ≫= f) w Φ.
Proof.
  unfold wp, wp_then, outcome, final, mbind, M_bind.
  by destruct (m e w) as [[a| |] w'].
Qed.

Lemma wp_try_catch e (body handler : M A) w Φ :
  wp e body w (wp_caught e handler Φ) → wp e (try_catch body handler) w Φ.
Proof.
  unfold wp, wp_caught, outcome, final, try_catch.
  by destruct (body e w) as [[a| |] w'].
Qed.

Lemma wp_undefined e w (Φ : Outcome A → World → Prop) :
  Φ Undefined w → wp e undefined w Φ.
Proof. done. Qed.

End wp_rules.

Lemma wp_call e c w Φ :
  (throws e (trace w) c = false → Φ (Returned tt) (record c w)) →
  (throws e (trace w) c = true → Φ Thrown (record c w)) →
  wp e (call c) w Φ.
Proof.
  unfold wp, outcome, final, call. cbn [fst snd].
  destruct (throws e (trace w) c); auto.
Qed.

Lemma wp_call_ok e c w Φ :
  throws e (trace w) c = false → Φ (Returned tt) (record c w) → wp e (call c) w Φ.
Proof. intros H1 H2. apply wp_call; [done | congruence]. Qed.

Lemma wp_get e w Φ : Φ (Returned w) w → wp e get w Φ.
Proof. done. Qed.

Lemma wp_ask e w Φ : Φ (Returned e) w → wp e ask w Φ.
Proof. done. Qed.

Lemma wp_set_instance e a w Φ :
  Φ (Returned tt) {| instance := a; appSettings := appSettings w;
                     settingsFile := settingsFile w; trace := trace w |} →
  wp e (set_instance a) w Φ.
Proof. done. Qed.

Lemma wp_set_appSettings e s w Φ :
  Φ (Returned tt) {| instance := instance w; appSettings := s;
                     settingsFile := settingsFile w; trace := trace w |} →
  wp e (set_appSettings s) w Φ.
Proof. done. Qed.

Lemma wp_set_settingsFile e s w Φ :
  Φ (Returned tt) {| instance := instance w; appSettings := appSettings w;
                     settingsFile := s; trace := trace w |} →
  wp e (set_settingsFile s) w Φ.
Proof. done. Qed.

(** One step of a run. *)
Ltac wp_step :=
  lazymatch goal with
  | |- wp _ (mbind _ _) _ _ => apply wp_bind
  | |- wp _ (mret _) _ _ => apply wp_ret
  | |- wp _ (try_catch _ _) _ _ => apply wp_try_catch
  | |- wp _ undefined _ _ => apply wp_undefined
  | |- wp _ get _ _ => apply wp_get
  | |- wp _ ask _ _ => apply wp_ask
  | |- wp _ (set_instance _) _ _ => apply wp_set_instance
  | |- wp _ (set_appSettings _) _ _ => apply wp_set_appSettings
  | |- wp _ (set_settingsFile _) _ _ => apply wp_set_settingsFile
  | H : fault_free ?e |- wp ?e (call ?c) ?w _ =>
      apply (wp_call_ok e c w _ (H (trace w) c))
  | H : collaborator_faults_only ?e |- wp ?e (call ?c) ?w _ =>
      first [ apply (wp_call_ok e c w _ (H (trace w) c eq_refl))
            | apply wp_call; intros ?Hcall ]
  | |- wp _ (call _) _ _ => apply wp_call; intros ?Hcall
  | |- wp _ (if ?b then _ else _) _ _ => destruct b eqn:?
  | |- wp _ (match ?x with _ => _ end) _ _ => destruct x eqn:?
  end; cbn beta iota zeta; world_simpl.

Ltac wp_run :=
  unfold_members; unfold_members; cbn beta iota zeta; world_simpl; repeat wp_step.

(** The events of a run whose final trace is known. *)
Ltac events_known :=
  repeat (erewrite emitted_app
    by (cbn [trace record]; rewrite <- ?app_assoc; cbn [app]; reflexivity)).

(** A statement about the outcome, the final world and the events of a run
    as a statement to be run symbolically. *)
Ltac wp_start m e w :=
  unfold events;
  pattern (outcome m e w), (final m e w);
  apply wp_intro.

Lemma count_nil f : count f [] = 0.
Proof. done. Qed.

Lemma count_cons f c tr : count f (c :: tr) = (if f c then 1 else 0) + count f tr.
Proof.
  unfold count. destruct (f c) eqn:Hc.
  - by rewrite filter_cons_True.
  - rewrite filter_cons_False; [done | congruence].
Qed.

(** Rewriting with what is known about the calls of a run. *)
Ltac known_calls :=
  cbn [raised];
  repeat match goal with
  | H : collaborator_faults_only ?e |- context [throws ?e ?tr ?c] =>
      rewrite (H tr c eq_refl)
  | H : fault_free ?e |- context [throws ?e ?tr ?c] => rewrite (H tr c)
  | H : throws ?e ?tr ?c = _ |- context [throws ?e ?tr ?c] => rewrite H
  end.

(** Counting the calls of a kind in a known list of calls. *)
Ltac counts :=
  rewrite ?count_cons, ?count_nil;
  repeat match goal with
  | |- context [if ?f ?c then 1 else 0] =>
      let b := eval lazy in (f c) in
      change (if f c then 1 else 0) with (if b then 1 else 0); cbn iota
  end;
  cbn [Nat.add].

(** ** Colour scheme switch *)

Section color_scheme.
Implicit Types (e : Env) (w : World) (m : MessageSwitchColorScheme).

(** Handling the notification sent by the switch touches the views only. *)
Lemma ui_refresh_notification_handled e w :
  let run := handleMessage ui_refresh_notification in
  instance (final run e w) = instance w ∧
  appSettings (final run e w) = appSettings w ∧
  settingsFile (final run e w) = settingsFile w ∧
  events run e w `prefix_of`
    TRACE "app refresh" ::
    (if m_hasGUI (instance w) then [ComponentManager_refreshViews] else []).
Proof.
  intros run. subst run. unfold ui_refresh_notification.
  wp_start (handleMessage (MsgRefresh {| uiOnly := true; all := false; reloadSettings := false |})) e w.
  wp_run.
  all: split_and!; try reflexivity; events_known.
  all: try done.
  all: by eexists.
Qed.


End color_scheme.

(** ** Startup and shutdown *)

Section startup_shutdown.
Implicit Types (e : Env) (w : World).

Lemma startMessagingAndScheduling_calls e w :
  events startMessagingAndScheduling e w `prefix_of` startup_calls ∧
  match outcome startMessagingAndScheduling e w with
  | Returned _ => events startMessagingAndScheduling e w = startup_calls
  | Thrown => True
  | Undefined => False
  end.
Proof.
  wp_start startMessagingAndScheduling e w.
  wp_run.
  all: split; events_known; try done.
  all: by eexists.
Qed.

Lemma destroy_calls e w :
  events destroy e w `prefix_of` shutdown_calls (m_hasGUI (instance w)) ∧
  match outcome destroy e w with
  | Returned _ => events destroy e w = shutdown_calls (m_hasGUI (instance w))
  | Thrown => True
  | Undefined => False
  end.
Proof.
  wp_start destroy e w.
  wp_run.
  all: split; events_known; try done.
  all: try match goal with H : m_hasGUI _ = _ |- _ => rewrite H end.
  all: try done.
  all: by eexists.
Qed.



End startup_shutdown.

(** ** Loading a project *)

Section load_project.
Implicit Types (e : Env) (w : World) (m : MessageLoadProject) (path : FilePath).

(** The reload leaves the application object and the settings file as
    they are and makes at most four calls. *)
Lemma reload_frame e w :
  instance (final reload e w) = instance w ∧
  settingsFile (final reload e w) = settingsFile w ∧
  (appSettings (final reload e w) = appSettings w ∨
   appSettings (final reload e w) = settingsFile w) ∧
  events reload e w `prefix_of`
    [TRACE "app load project"; ApplicationSettings_load;
     ColorScheme_load (getColorSchemePath (settingsFile w));
     GraphViewStyle_loadStyleSettings] ∧
  outcome reload e w ≠ Undefined.
Proof.
  wp_start reload e w. wp_run.
  all: split_and!; try done; try (by left); try (by right); events_known.
  all: by eexists.
Qed.

Lemma reload_counts e w f :
  f (TRACE "app load project") = false →
  f ApplicationSettings_load = false →
  (∀ p, f (ColorScheme_load p) = false) →
  f GraphViewStyle_loadStyleSettings = false →
  count f (events reload e w) = 0.
Proof.
  intros H1 H2 H3 H4.
  destruct (reload_frame e w) as (_ & _ & _ & [k Hk] & _).
  assert (count f (events reload e w ++ k) = 0) as Hc.
  { rewrite <- Hk. unfold count. cbn [filter list_filter].
    rewrite !decide_False; [done|..]; rewrite ?H1, ?H2, ?H3, ?H4; done. }
  rewrite count_app in Hc. lia.
Qed.

(** The handler starts with the reload, whatever the message. *)
Lemma handleMessage_LoadProject_reload m e w :
  handleMessage_LoadProject m e w =
  (reload;;
   if FilePath_empty (projectSettingsFilePath m) then mret tt
   else
     if forceRefresh m && negb (isTrial e) then
       a ← this;
       returned ← (if m_hasGUI a then confirm_reindex (projectSettingsFilePath m)
                   else mret false);
       if returned : bool then mret tt else refreshProject true
     else
       a ← this;
       if is_other_project a (projectSettingsFilePath m) then
         createAndLoadProject (projectSettingsFilePath m)
       else mret tt) e w.
Proof.
  unfold handleMessage_LoadProject, reload, mbind, M_bind, ask.
  destruct (call _ e w) as [[| |] w1]; try done.
  destruct (loadSettings e w1) as [[| |] w2]; try done.
  cbv zeta. by destruct (FilePath_empty _), (forceRefresh m && negb (isTrial e)).
Qed.



(** A message without (effective) force-refresh flag for the current
    project: the handler is the reload. *)
Lemma load_project_same e w m :
  forceRefresh m && negb (isTrial e) = false →
  is_other_project (instance w) (projectSettingsFilePath m) = false →
  handleMessage_LoadProject m e w = reload e w.
Proof.
  intros Hforce Hsame. rewrite handleMessage_LoadProject_reload.
  rewrite Hforce. unfold mbind, M_bind.
  pose proof (reload_frame e w) as (Hi & _).
  unfold final in Hi.
  destruct (reload e w) as [[[]| |] w1]; try done. cbn [snd] in Hi.
  destruct (FilePath_empty _); [done|].
  unfold this, get, mbind, M_bind, mret, M_ret. rewrite Hi, Hsame. done.
Qed.

(** A message without (effective) force-refresh flag for another project:
    the handler is the reload followed by [createAndLoadProject]. *)
Lemma load_project_other e w m :
  FilePath_empty (projectSettingsFilePath m) = false →
  forceRefresh m && negb (isTrial e) = false →
  is_other_project (instance w) (projectSettingsFilePath m) = true →
  handleMessage_LoadProject m e w =
  (reload;; createAndLoadProject (projectSettingsFilePath m)) e w.
Proof.
  intros Hempty Hforce Hother. rewrite handleMessage_LoadProject_reload.
  rewrite Hforce, Hempty. unfold mbind, M_bind.
  pose proof (reload_frame e w) as (Hi & _).
  unfold final in Hi.
  destruct (reload e w) as [[[]| |] w1]; try done. cbn [snd] in Hi.
  unfold this, get, mbind, M_bind, mret, M_ret. rewrite Hi, Hother. done.
Qed.

(** C9: in the trial build a message with the force-refresh flag is
    handled exactly as the same message without the flag: no
    confirmation is asked, no forced refresh is made, a project that is
    already the current one is not loaded again and any other project is
    loaded by [createAndLoadProject]. *)
Theorem load_project_trial_ignores_force e w path :
  isTrial e = true →
  let forced := handleMessage (MsgLoadProject
    {| projectSettingsFilePath := path; forceRefresh := true |}) in
  let plain := handleMessage (MsgLoadProject
    {| projectSettingsFilePath := path; forceRefresh := false |}) in
  forced e w = plain e w ∧
  count is_confirm (events forced e w) = 0 ∧
  count is_force_refresh (events forced e w) = 0 ∧
  (is_other_project (instance w) path = false → forced e w = reload e w) ∧
  (is_other_project (instance w) path = true → FilePath_empty path = false →
     forced e w = (reload;; createAndLoadProject path) e w).
Proof.
  intros Htrial forced plain.
  assert (forced e w = plain e w) as Heq.
  { subst forced plain. cbn [handleMessage].
    rewrite !handleMessage_LoadProject_reload.
    cbn [projectSettingsFilePath forceRefresh]. by rewrite Htrial. }
  split; [done|].
  assert (count is_confirm (events plain e w) = 0 ∧
          count is_force_refresh (events plain e w) = 0) as Hc.
  { subst plain. wp_start (handleMessage (MsgLoadProject
      {| projectSettingsFilePath := path; forceRefresh := false |})) e w.
    wp_run.
    all: split; events_known; reflexivity. }
  unfold events, final in *. rewrite Heq. destruct Hc as [Hc1 Hc2].
  split_and!; [done..| |].
  - intros Hsame. rewrite <- Heq. subst forced. cbn [handleMessage].
    apply load_project_same; [|done].
    cbn [forceRefresh]. by rewrite Htrial.
  - intros Hother Hempty. rewrite <- Heq. subst forced. cbn [handleMessage].
    apply (load_project_other e w {| projectSettingsFilePath := path; forceRefresh := true |});
      [done| |done].
    cbn [forceRefresh]. by rewrite Htrial.
Qed.

End load_project.

(** ** Recent projects *)

Section recent_projects.
Import RecentProjects.
Implicit Types (e : Env) (w : World) (p : FilePath) (l : list FilePath).

Lemma updateRecentProjects_nogui e w p :
  m_hasGUI (instance w) = false →
  updateRecentProjects p e w = (Returned tt, w).
Proof.
  intros Hgui. unfold updateRecentProjects, this, get, mbind, M_bind, mret, M_ret.
  by rewrite Hgui.
Qed.

(** With a GUI the list in memory is updated whatever raises afterwards;
    it reaches the settings file when the save returns. *)
Lemma updateRecentProjects_gui e w p :
  m_hasGUI (instance w) = true →
  let run := updateRecentProjects p in
  instance (final run e w) = instance w ∧
  appSettings (final run e w) =
    {| getRecentProjects := update p (getRecentProjects (appSettings w));
       getColorSchemePath := getColorSchemePath (appSettings w) |} ∧
  events run e w `prefix_of`
    [ApplicationSettings_save; MainView_updateRecentProjectMenu] ∧
  match outcome run e w with
  | Returned _ =>
      settingsFile (final run e w) = appSettings (final run e w) ∧
      events run e w = [ApplicationSettings_save; MainView_updateRecentProjectMenu]
  | Thrown => True
  | Undefined => False
  end.
Proof.
  intros Hgui run. subst run.
  wp_start (updateRecentProjects p) e w. wp_run; try congruence.
  all: split_and!; try done; events_known; try done.
  all: by eexists.
Qed.

Lemma updateRecentProjects_each_gui e w ps :
  fault_free e →
  m_hasGUI (instance w) = true →
  let run := updateRecentProjects_each ps in
  outcome run e w = Returned tt ∧
  getRecentProjects (appSettings (final run e w)) =
    update_all ps (getRecentProjects (appSettings w)).
Proof.
  intros He. revert w. induction ps as [|p ps IH]; intros w Hgui; [done|].
  cbn [updateRecentProjects_each update_all foldl].
  pose proof (updateRecentProjects_gui e w p Hgui) as (Hi & Hs & _ & Ho).
  assert (outcome (updateRecentProjects p) e w = Returned tt) as Hret.
  { wp_start (updateRecentProjects p) e w. wp_run; congruence. }
  rewrite Hret in Ho. cbv zeta.
  unfold outcome, final, mbind, M_bind in *.
  destruct (updateRecentProjects p e w) as [o w1]. cbn [fst snd] in *. subst o.
  destruct (IH w1) as [IH1 IH2]; [congruence|].
  split; [done|]. rewrite IH2, Hs. done.
Qed.

Lemma update_all_eight (a b c d f g h i : FilePath) :
  NoDup [a; b; c; d; f; g; h; i] →
  update_all [a; b; c; d; f; g; h; i] [] = [i; h; g; f; d; c; b].
Proof.
  intros Hnd. unfold update_all. cbn [foldl].
  rewrite !update_eq.
  repeat match goal with
  | H : NoDup (_ :: _) |- _ => apply NoDup_cons in H as [? H]
  end.
  repeat match goal with
  | H : _ ∉ _ :: _ |- _ => apply not_elem_of_cons in H as [? H]
  end.
  cbn [remove_first take].
  repeat (rewrite decide_False by congruence; cbn [remove_first take]).
  done.
Qed.

End recent_projects.

Section recent_projects_claims.
Import RecentProjects.
Implicit Types (e : Env) (w : World) (p : FilePath) (l : list FilePath).

(** C1, as stated, fails on a prior list that holds a path twice: only the
    first occurrence of the added path is erased, and duplicates among
    the other entries stay. *)
Lemma update_keeps_second_occurrence :
  let after p l :=
    getRecentProjects (appSettings
      (final (updateRecentProjects p) env_ok (world0 true None l))) in
  after "A" ["A"; "A"] = ["A"; "A"] ∧
  ¬ NoDup (after "A" ["A"; "A"]) ∧
  after "A" ["B"; "B"] = ["A"; "B"; "B"] ∧
  ¬ NoDup (after "A" ["B"; "B"]).
Proof.
  cbv zeta.
  assert (∀ x y : FilePath, ¬ NoDup [x; y; y]) as H3.
  { intros x y [_ [H _]%NoDup_cons]%NoDup_cons. apply H. left. }
  assert (∀ y : FilePath, ¬ NoDup [y; y]) as H2.
  { intros y [H _]%NoDup_cons. apply H. left. }
  split_and!; [reflexivity | apply H2 | reflexivity | apply H3].
Qed.

(** C1 (amended): the update of the recent-projects list that
    [updateRecentProjects p] makes (it makes one when a GUI is attached)
    puts [p] at the front, erases the first previous occurrence of [p],
    keeps the other entries in their order and cuts the list to seven
    entries, dropping the ones at the end; the list is never longer than
    seven and re-adding a path does not make it longer.  On a prior list
    without duplicates the result has no duplicates and holds no other
    occurrence of [p].  Adding eight distinct paths A..H in this order to
    the empty list gives [H;G;F;E;D;C;B]. *)
Theorem recent_projects_update p l :
  let l' := update p l in
  l' = p :: take 6 (remove_first p l) ∧
  take 6 (remove_first p l) `sublist_of` l ∧
  length l' ≤ 7 ∧
  (p ∈ l → length l' ≤ length l) ∧
  (p ∉ l → l' = p :: take 6 l) ∧
  (NoDup l → NoDup l' ∧ l' = p :: take 6 (filter (λ q, q ≠ p) l)) ∧
  (∀ e w, m_hasGUI (instance w) = true → getRecentProjects (appSettings w) = l →
     getRecentProjects (appSettings (final (updateRecentProjects p) e w)) = l') ∧
  (∀ a b c d f g h i : FilePath, NoDup [a; b; c; d; f; g; h; i] →
     update_all [a; b; c; d; f; g; h; i] [] = [i; h; g; f; d; c; b] ∧
     ∀ e w, fault_free e → m_hasGUI (instance w) = true →
       getRecentProjects (appSettings w) = [] →
       getRecentProjects (appSettings
         (final (updateRecentProjects_each [a; b; c; d; f; g; h; i]) e w)) =
       [i; h; g; f; d; c; b]).
Proof.
  intros l'. subst l'. split_and!.
  - apply update_eq.
  - etrans; [apply sublist_take | apply remove_first_sublist].
  - apply update_length.
  - apply update_length_readd.
  - intros Hp. by rewrite update_eq, remove_first_notin.
  - intros Hnd. split; [by apply update_NoDup|].
    by rewrite update_eq, remove_first_NoDup.
  - intros e w Hgui <-.
    by destruct (updateRecentProjects_gui e w p Hgui) as (_ & -> & _).
  - intros a b c d f g h i Hnd. split; [by apply update_all_eight|].
    intros e w He Hgui Hl.
    destruct (updateRecentProjects_each_gui e w [a; b; c; d; f; g; h; i] He Hgui) as [_ ->].
    rewrite Hl. by apply update_all_eight.
Qed.

Lemma recent_projects_update_witness :
  NoDup ["A"; "B"; "C"; "D"; "E"; "F"; "G"; "H"] ∧
  update_all ["A"; "B"; "C"; "D"; "E"; "F"; "G"; "H"] [] =
    ["H"; "G"; "F"; "E"; "D"; "C"; "B"] ∧
  getRecentProjects (appSettings
    (final (updateRecentProjects_each ["A"; "B"; "C"; "D"; "E"; "F"; "G"; "H"])
       env_ok (world0 true None []))) =
    ["H"; "G"; "F"; "E"; "D"; "C"; "B"].
Proof.
  assert (NoDup ["A"; "B"; "C"; "D"; "E"; "F"; "G"; "H"]) as Hnd.
  { apply (bool_decide_unpack _). vm_compute. exact I. }
  split; [exact Hnd|].
  destruct (proj2 (proj2 (proj2 (proj2 (proj2 (proj2 (proj2
    (recent_projects_update "A" [])))))))
    "A" "B" "C" "D" "E" "F" "G" "H" Hnd) as [H1 H2].
  split; [exact H1|].
  exact (H2 env_ok (world0 true None []) (λ tr c, eq_refl) eq_refl eq_refl).
Defined.

End recent_projects_claims.

(** ** Creating and loading a project *)

Section create_and_load.
Import RecentProjects.
Implicit Types (e : Env) (w : World) (p : FilePath).

(** C3, as stated, fails without a GUI: the project is loaded, but the
    recent-projects list is neither changed nor saved. *)
Lemma load_without_gui_keeps_recent_projects :
  let run := createAndLoadProject "A" in
  let w := world0 false None ["B"] in
  outcome run env_ok w = Returned tt ∧
  m_project (instance (final run env_ok w)) = Some (project_at "A") ∧
  count is_error_status (events run env_ok w) = 0 ∧
  getRecentProjects (appSettings (final run env_ok w)) = ["B"] ∧
  getRecentProjects (settingsFile (final run env_ok w)) = ["B"] ∧
  count is_settings_save (events run env_ok w) = 0.
Proof. cbv zeta. split_and!; reflexivity. Qed.

(** C3 (amended): after a load that succeeded (no error status) the
    current project is the loaded one.  With a GUI the path has been put
    at the front of the recent-projects list (first previous occurrence
    erased, at most seven entries), the settings have been saved once, so
    that the settings file holds the list, and the recent-projects menu
    has been updated once.  Without a GUI the settings, in memory and in
    the file, are as before: nothing is saved and no menu is updated. *)
Theorem createAndLoadProject_recent_projects e w p :
  collaborator_faults_only e →
  let run := createAndLoadProject p in
  count is_error_status (events run e w) = 0 →
  m_project (instance (final run e w)) = Some (project_at p) ∧
  if m_hasGUI (instance w) then
    getRecentProjects (appSettings (final run e w)) =
      update p (getRecentProjects (appSettings w)) ∧
    settingsFile (final run e w) = appSettings (final run e w) ∧
    count is_settings_save (events run e w) = 1 ∧
    count is_menu_update (events run e w) = 1
  else
    appSettings (final run e w) = appSettings w ∧
    settingsFile (final run e w) = settingsFile w ∧
    count is_settings_save (events run e w) = 0 ∧
    count is_menu_update (events run e w) = 0.
Proof.
  intros He run. subst run.
  wp_start (createAndLoadProject p) e w. wp_run.
  all: events_known; intros Herr; try discriminate Herr.
  all: repeat match goal with H : m_hasGUI _ = _ |- _ => rewrite H in * end.
  all: try discriminate.
  all: split_and!; reflexivity.
Qed.

Lemma createAndLoadProject_recent_projects_witness :
  collaborator_faults_only env_ok ∧
  count is_error_status (events (createAndLoadProject "A") env_ok (world0 true None ["B"; "A"])) = 0 ∧
  getRecentProjects (settingsFile
    (final (createAndLoadProject "A") env_ok (world0 true None ["B"; "A"]))) = ["A"; "B"].
Proof.
  split; [by intros tr c _|]. split; [reflexivity|].
  pose proof (createAndLoadProject_recent_projects env_ok (world0 true None ["B"; "A"]) "A"
    (λ tr c _, eq_refl) eq_refl) as (_ & H1 & H2 & _).
  rewrite H2. exact H1.
Defined.

(** C4, as stated, fails on the project state: a fault raised by the last
    collaborator call of the load leaves the application object exactly as
    a load without fault leaves it, so that nothing in it tells the failed
    load from the successful one.  Besides, the handler of the fault is
    not guarded itself: when the dispatch of the error status raises, that
    exception leaves [createAndLoadProject]. *)
Lemma fault_leaves_no_failed_state :
  let run := createAndLoadProject "A" in
  let w := world0 true None [] in
  let faulty := env_throwing is_refresh_views in
  let unreported := env_throwing (λ c, is_project_create c || is_error_status c) in
  raised faulty (trace w) (events run faulty w) = 1 ∧
  raised env_ok (trace w) (events run env_ok w) = 0 ∧
  instance (final run faulty w) = instance (final run env_ok w) ∧
  (¬ ∃ state_of : Application → ProjectState,
      state_of (instance (final run faulty w)) = Failed ∧
      state_of (instance (final run env_ok w)) = Loaded) ∧
  outcome run unreported w = Thrown.
Proof.
  cbv zeta. split_and!; try (vm_compute; reflexivity).
  intros (state_of & H1 & H2).
  change (instance (final (createAndLoadProject "A") (env_throwing is_refresh_views)
            (world0 true None [])))
    with (instance (final (createAndLoadProject "A") env_ok (world0 true None []))) in H1.
  congruence.
Qed.

(** C4 (amended): when the dispatch of status messages and the logging do
    not raise themselves, [createAndLoadProject] always returns: no
    exception leaves it, whatever the collaborators raise.  At most one
    call of a run raises, and the run dispatches exactly as many error
    status messages as calls raised; after a fault the error is logged
    and the status "Failed to load project." is the last call of the run.
    The application object records no failure: the current project is
    the one from before the run if the fault came before [Project::create]
    returned, and the project just created otherwise. *)
Theorem createAndLoadProject_fault_reported e w p :
  collaborator_faults_only e →
  let run := createAndLoadProject p in
  let faults := raised e (trace w) (events run e w) in
  outcome run e w = Returned tt ∧
  faults ≤ 1 ∧
  count is_error_status (events run e w) = faults ∧
  count is_status (events run e w) = 1 + faults ∧
  (faults = 1 →
     ∃ calls, events run e w = calls ++ [LOG_ERROR "Failed to load project."; failed_status]) ∧
  (faults = 0 → events run e w = load_calls e (m_hasGUI (instance w)) p) ∧
  m_project (instance (final run e w)) =
    (if returned_call is_project_create e (trace w) (events run e w)
     then Some (project_at p)
     else m_project (instance w)) ∧
  m_hasGUI (instance (final run e w)) = m_hasGUI (instance w).
Proof.
  intros He run faults. subst run faults.
  wp_start (createAndLoadProject p) e w. wp_run.
  all: events_known; cbn [returned_call]; known_calls; counts.
  all: cbn [is_project_create andb orb negb].
  all: repeat match goal with H : m_hasGUI _ = _ |- _ => rewrite H end.
  all: split_and!; try reflexivity; try lia.
  all: try (intros Hf; try discriminate Hf; try reflexivity).
  all: first
    [ by eexists [_] | by eexists [_; _] | by eexists [_; _; _]
    | by eexists [_; _; _; _] | by eexists [_; _; _; _; _]
    | by eexists [_; _; _; _; _; _] | by eexists [_; _; _; _; _; _; _]
    | by eexists [_; _; _; _; _; _; _; _] | by eexists [_; _; _; _; _; _; _; _; _] ].
Qed.

End create_and_load.

(** ** Forced refresh *)

Section force_refresh.
Implicit Types (e : Env) (w : World) (m : MessageLoadProject).



(** Answering "No" for the current project: the code goes on to the forced
    refresh. *)
Lemma declined_reindex_same_project_refreshes :
  let run := handleMessage (MsgLoadProject
    {| projectSettingsFilePath := "A"; forceRefresh := true |}) in
  let no := env_answer false 1 in
  let w := world0 true (Some (project_at "A")) [] in
  count is_confirm (events run no w) = 1 ∧
  count is_force_refresh (events run no w) = 1.
Proof. cbv zeta. split; reflexivity. Qed.


End force_refresh.

(** ** Loading the current project again *)

Section reload_guard.
Import RecentProjects.
Implicit Types (e : Env) (w : World) (m : MessageLoadProject).

Lemma is_other_project_current gui path :
  is_other_project {| m_hasGUI := gui; m_project := Some (project_at path) |} path = false.
Proof. unfold is_other_project. cbn. by rewrite bool_decide_true. Qed.

(** C5, as stated, fails in two ways.  Without a GUI two messages in
    succession load the project once but update the recent projects not
    at all.  With a GUI, a load that fails in [clearComponents] has
    already stored the new project, so that the same message again loads
    nothing: no failed state makes the handler try again. *)
Lemma reload_guard_without_failed_state :
  let run := handleMessage (MsgLoadProject
    {| projectSettingsFilePath := "A"; forceRefresh := false |}) in
  let twice := run;; run in
  let headless := world0 false None [] in
  let faulty := env_throwing is_clear_components in
  let failed := final run faulty (world0 true None []) in
  (outcome twice env_ok headless = Returned tt ∧
   count is_project_create (events twice env_ok headless) = 1 ∧
   count is_settings_save (events twice env_ok headless) = 0 ∧
   getRecentProjects (appSettings (final twice env_ok headless)) = []) ∧
  (count is_error_status (events run faulty (world0 true None [])) = 1 ∧
   run faulty failed = reload faulty failed ∧
   count is_project_create (events run faulty failed) = 0).
Proof. cbv zeta. split_and!; vm_compute; reflexivity. Qed.

(** C5 (amended): a message without force-refresh flag (or with it, in the
    trial build) and with a non-empty path is handled as follows.  If the
    path is that of the current project, the handler is the reload of
    settings and style: no project is created, nothing is saved, the
    application object and the settings file stay as they were.
    Otherwise, and only then, the handler goes on to
    [createAndLoadProject]; this is the case again after a load that
    failed before the new project was stored.  When nothing raises, two
    such messages in succession for a project that is not the current one
    create the project exactly once and leave it as the current project;
    the settings are saved once with a GUI and never without. *)
Theorem load_project_idempotent e w m :
  FilePath_empty (projectSettingsFilePath m) = false →
  forceRefresh m && negb (isTrial e) = false →
  let path := projectSettingsFilePath m in
  let run := handleMessage (MsgLoadProject m) in
  let twice := run;; run in
  (is_other_project (instance w) path = false →
     run e w = reload e w ∧
     count is_project_create (events run e w) = 0 ∧
     count is_settings_save (events run e w) = 0 ∧
     instance (final run e w) = instance w ∧
     settingsFile (final run e w) = settingsFile w) ∧
  (is_other_project (instance w) path = true →
     run e w = (reload;; createAndLoadProject path) e w) ∧
  (is_other_project (instance w) path = true → fault_free e →
     outcome twice e w = Returned tt ∧
     m_project (instance (final twice e w)) = Some (project_at path) ∧
     count is_project_create (events twice e w) = 1 ∧
     count is_error_status (events twice e w) = 0 ∧
     count is_settings_save (events twice e w) = (if m_hasGUI (instance w) then 1 else 0) ∧
     getRecentProjects (appSettings (final twice e w)) =
       (if m_hasGUI (instance w)
        then update path (getRecentProjects (settingsFile w))
        else getRecentProjects (settingsFile w))).
Proof.
  intros Hempty Hforce path run twice. subst path. split_and!.
  - intros Hsame.
    assert (run e w = reload e w) as Heq by by apply load_project_same.
    unfold events, final. rewrite Heq.
    fold (final reload e w). fold (events reload e w).
    destruct (reload_frame e w) as (Hi & Hf & _).
    split_and!; try done; by apply reload_counts.
  - intros Hother. by apply load_project_other.
  - intros Hother He. subst twice run.
    destruct m as [p f]. cbn [forceRefresh projectSettingsFilePath] in *.
    wp_start (handleMessage (MsgLoadProject {| projectSettingsFilePath := p; forceRefresh := f |});;
              handleMessage (MsgLoadProject {| projectSettingsFilePath := p; forceRefresh := f |})) e w.
    wp_run; try congruence.
    all: repeat match goal with
         | H : is_other_project _ _ = true |- _ =>
             rewrite is_other_project_current in H; discriminate H
         end.
    all: repeat match goal with H : m_hasGUI _ = _ |- _ => rewrite H in * end.
    all: try discriminate.
    all: events_known; counts; split_and!; reflexivity.
Qed.

Lemma load_project_idempotent_witness :
  FilePath_empty "A" = false ∧
  false && negb (isTrial env_ok) = false ∧
  count is_project_create
    (events (handleMessage (MsgLoadProject {| projectSettingsFilePath := "A"; forceRefresh := false |});;
             handleMessage (MsgLoadProject {| projectSettingsFilePath := "A"; forceRefresh := false |}))
       env_ok (world0 true None ["B"])) = 1.
Proof.
  split; [reflexivity|]. split; [reflexivity|].
  pose proof (load_project_idempotent env_ok (world0 true None ["B"])
    {| projectSettingsFilePath := "A"; forceRefresh := false |} eq_refl eq_refl)
    as (_ & _ & H).
  exact (proj1 (proj2 (proj2 (H eq_refl (λ tr c, eq_refl))))).
Defined.

End reload_guard.

(** ** The theorems at concrete runs *)

Lemma env_throwing_project_create_collaborator :
  collaborator_faults_only (env_throwing is_project_create).
Proof. intros tr c Hc. by destruct c. Qed.

Lemma createAndLoadProject_fault_reported_witness :
  collaborator_faults_only (env_throwing is_project_create) ∧
  outcome (createAndLoadProject "A") (env_throwing is_project_create)
    (world0 true (Some (project_at "B")) []) = Returned tt ∧
  count is_error_status
    (events (createAndLoadProject "A") (env_throwing is_project_create)
       (world0 true (Some (project_at "B")) [])) = 1.
Proof.
  split; [exact env_throwing_project_create_collaborator|].
  pose proof (createAndLoadProject_fault_reported (env_throwing is_project_create)
    (world0 true (Some (project_at "B")) []) "A"
    env_throwing_project_create_collaborator) as (H1 & _ & H2 & _).
  split; [exact H1|]. rewrite H2. vm_compute. reflexivity.
Defined.



Lemma load_project_trial_ignores_force_witness :
  isTrial (env_answer true 0) = true ∧
  handleMessage (MsgLoadProject {| projectSettingsFilePath := "A"; forceRefresh := true |})
    (env_answer true 0) (world0 true None []) =
  handleMessage (MsgLoadProject {| projectSettingsFilePath := "A"; forceRefresh := false |})
    (env_answer true 0) (world0 true None []).
Proof.
  split; [reflexivity|].
  exact (proj1 (load_project_trial_ignores_force (env_answer true 0) (world0 true None [])
    "A" eq_refl)).
Defined.


(** * Further properties *)

(** ** The recent-projects vector over sequences of loads *)

Section recent_projects_sequences.
Import RecentProjects.
Implicit Types (p q : FilePath) (l : list FilePath).

Lemma take_remove_first_take n p l :
  take n (remove_first p (take (S n) l)) = take n (remove_first p l).
Proof.
  revert n. induction l as [|q l IH]; intros n; [done|].
  cbn [take remove_first]. case_decide as Hq.
  - by rewrite take_take, Nat.min_id.
  - destruct n as [|n]; [done|]. cbn [take]. by rewrite IH.
Qed.

(** Entries behind the seventh never matter for an update. *)
Lemma update_take p l : update p (take 7 l) = update p l.
Proof. by rewrite !update_eq, take_remove_first_take. Qed.

Lemma first_occurrences_elem_of p l : p ∈ first_occurrences l ↔ p ∈ l.
Proof.
  induction l as [|q l IH]; cbn [first_occurrences]; [done|].
  rewrite !elem_of_cons, list_elem_of_filter, IH.
  split.
  - intros [->|[Hne Hp]]; [by left | by right].
  - intros [->|Hp]; [by left|].
    destruct (decide (p = q)) as [->|Hne]; [by left | by right].
Qed.

Lemma first_occurrences_NoDup l : NoDup (first_occurrences l).
Proof.
  induction l as [|q l IH]; cbn [first_occurrences]; [constructor|].
  apply NoDup_cons. split.
  - intros [H _]%list_elem_of_filter. by apply H.
  - by apply NoDup_filter.
Qed.

(** The updates without the cut to seven entries. *)
Lemma update_all_uncut ps l :
  update_all ps (take 7 l) =
  take 7 (foldl (λ acc p, p :: remove_first p acc) l ps).
Proof.
  revert l. induction ps as [|p ps IH]; intros l; [done|].
  unfold update_all in *. cbn [foldl].
  rewrite update_take.
  replace (update p l) with (take 7 (p :: remove_first p l)) by by rewrite update_eq.
  apply IH.
Qed.

Lemma uncut_first_occurrences ps :
  foldl (λ acc p, p :: remove_first p acc) [] ps = first_occurrences (reverse ps).
Proof.
  induction ps as [|p ps IH] using rev_ind; [done|].
  rewrite foldl_app, reverse_app. cbn [foldl reverse app first_occurrences].
  rewrite reverse_singleton. cbn [app first_occurrences].
  rewrite IH. f_equal. apply remove_first_NoDup, first_occurrences_NoDup.
Qed.

(** X1: adding a path that was just added changes nothing, whatever the
    list was: the update is idempotent. *)
Theorem update_idempotent p l : update p (update p l) = update p l.
Proof.
  rewrite (update_eq p (update p l)), (update_eq p l).
  cbn [remove_first]. rewrite decide_True by done.
  by rewrite take_take, Nat.min_id.
Qed.

(** X2: after any sequence of additions to the empty list, the list holds
    the distinct paths of the sequence, the most recently added first,
    cut to seven entries; it has no duplicates. *)
Theorem update_all_most_recent ps :
  update_all ps [] = take 7 (first_occurrences (reverse ps)) ∧
  NoDup (update_all ps []) ∧
  length (update_all ps []) ≤ 7 ∧
  (∀ e w, fault_free e → m_hasGUI (instance w) = true →
     getRecentProjects (appSettings w) = [] →
     getRecentProjects (appSettings (final (updateRecentProjects_each ps) e w)) =
     take 7 (first_occurrences (reverse ps))).
Proof.
  assert (update_all ps [] = take 7 (first_occurrences (reverse ps))) as Heq.
  { change (@nil FilePath) with (take 7 (@nil FilePath)) at 1.
    by rewrite update_all_uncut, uncut_first_occurrences. }
  split_and!.
  - done.
  - rewrite Heq.
    eapply sublist_NoDup; [apply first_occurrences_NoDup | apply sublist_take].
  - rewrite Heq, length_take. lia.
  - intros e w He Hgui Hl.
    destruct (updateRecentProjects_each_gui e w ps He Hgui) as [_ ->].
    by rewrite Hl.
Qed.

Lemma update_all_most_recent_witness :
  fault_free env_ok ∧
  getRecentProjects (appSettings
    (final (updateRecentProjects_each ["A"; "B"; "A"; "C"; "B"]) env_ok
       (world0 true None []))) = ["B"; "C"; "A"].
Proof.
  split; [by intros tr c|].
  exact (proj2 (proj2 (proj2 (update_all_most_recent ["A"; "B"; "A"; "C"; "B"])))
    env_ok (world0 true None []) (λ tr c, eq_refl) eq_refl eq_refl).
Defined.

(** X3: an update invents nothing and, while the list has fewer than seven
    entries, loses nothing: every entry of the result is the added path or
    an entry of the prior list, and every entry of a prior list shorter
    than seven is still there. *)
Theorem update_entries p l :
  (∀ q, q ∈ update p l → q = p ∨ q ∈ l) ∧
  (length l < 7 → ∀ q, q ∈ l → q ∈ update p l).
Proof.
  rewrite update_eq. split.
  - intros q [->|Hq]%elem_of_cons; [by left|]. right.
    eapply elem_of_sublist; [done|].
    etrans; [apply sublist_take | apply remove_first_sublist].
  - intros Hlen q Hq. destruct (decide (q = p)) as [->|Hne]; [left|].
    right. rewrite take_ge.
    + clear Hlen. induction l as [|r l IH]; [by apply elem_of_nil in Hq|].
      cbn [remove_first]. case_decide as Hr.
      * apply elem_of_cons in Hq as [->|Hq]; [congruence | done].
      * apply elem_of_cons in Hq as [->|Hq]; [left | right; by apply IH].
    + pose proof (sublist_length _ _ (remove_first_sublist p l)). lia.
Qed.

Lemma update_entries_witness :
  length ["A"; "B"] < 7 ∧ "B" ∈ ["A"; "B"] ∧ "B" ∈ update "C" ["A"; "B"].
Proof.
  assert ("B" ∈ ["A"; "B"]) as Hin by (right; left).
  split; [cbn; lia|]. split; [exact Hin|].
  apply (proj2 (update_entries "C" ["A"; "B"])); [cbn; lia | exact Hin].
Defined.

End recent_projects_sequences.

(** ** What the handlers keep and what they never do *)

Lemma emitted_same w : emitted w w = [].
Proof. apply emitted_app. by rewrite app_nil_r. Qed.

(** Runs the handler of the goal symbolically. *)
Ltac wp_handler e w :=
  unfold events;
  match goal with
  | |- context [final ?m e w] => wp_start m e w; wp_run
  end.

Section handler_frames.
Implicit Types (e : Env) (w : World) (message : Message).

(** X4: no handler changes whether the application has a GUI, and an
    application without GUI makes no call into the user interface (main
    view, component manager), whatever message it handles and whatever
    the collaborators raise. *)
Theorem headless_makes_no_ui_call e w message :
  let run := handleMessage message in
  m_hasGUI (instance (final run e w)) = m_hasGUI (instance w) ∧
  (m_hasGUI (instance w) = false → count is_ui_call (events run e w) = 0).
Proof.
  intros run. subst run.
  destruct message as [m|[p f]|[u a r]|[c]| | | |m]; cbn [handleMessage].
  all: wp_handler e w.
  all: rewrite ?emitted_same; events_known; split; [done|].
  all: intros Hgui; try congruence.
  all: counts; reflexivity.
Qed.

Lemma headless_makes_no_ui_call_witness :
  m_hasGUI (instance (world0 false None [])) = false ∧
  count is_ui_call
    (events (handleMessage (MsgLoadProject
       {| projectSettingsFilePath := "A"; forceRefresh := false |}))
       env_ok (world0 false None [])) = 0.
Proof.
  split; [reflexivity|].
  exact (proj2 (headless_makes_no_ui_call env_ok (world0 false None [])
    (MsgLoadProject {| projectSettingsFilePath := "A"; forceRefresh := false |})) eq_refl).
Defined.

(** X5: only [LoadProject] touches the current project and the settings
    file: every other message leaves the application object and the
    settings file as they were, creates no project and saves nothing. *)
Theorem other_messages_keep_project e w message :
  is_load_project message = false →
  let run := handleMessage message in
  instance (final run e w) = instance w ∧
  settingsFile (final run e w) = settingsFile w ∧
  count is_project_create (events run e w) = 0 ∧
  count is_settings_save (events run e w) = 0.
Proof.
  intros Hm run. subst run.
  destruct message as [m|[p f]|[u a r]|[c]| | | |m]; try discriminate Hm;
    cbn [handleMessage].
  all: wp_handler e w.
  all: rewrite ?emitted_same; events_known; counts; split_and!; reflexivity.
Qed.

Lemma other_messages_keep_project_witness :
  is_load_project (MsgRefresh {| uiOnly := false; all := true; reloadSettings := true |}) = false ∧
  instance (final (handleMessage
      (MsgRefresh {| uiOnly := false; all := true; reloadSettings := true |}))
    env_ok (world0 true (Some (project_at "A")) ["A"])) =
  instance (world0 true (Some (project_at "A")) ["A"]).
Proof.
  split; [reflexivity|].
  exact (proj1 (other_messages_keep_project env_ok (world0 true (Some (project_at "A")) ["A"])
    (MsgRefresh {| uiOnly := false; all := true; reloadSettings := true |}) eq_refl)).
Defined.

End handler_frames.

(** ** Refreshing *)

Section refreshing.
Implicit Types (e : Env) (w : World) (message : MessageRefresh).

(** X6: a UI-only refresh never reaches the project or the storage cache
    and announces nothing: no project refresh, no cache clear, no status
    message, and no null project is dereferenced.  When it also keeps the
    settings, its only calls are the trace and, with a GUI, the refresh of
    the views. *)
Theorem refresh_ui_only e w message :
  uiOnly message = true →
  let run := handleMessage (MsgRefresh message) in
  count is_project_refresh (events run e w) = 0 ∧
  count is_cache_clear (events run e w) = 0 ∧
  count is_status (events run e w) = 0 ∧
  outcome run e w ≠ Undefined ∧
  (reloadSettings message = false →
     appSettings (final run e w) = appSettings w ∧
     events run e w `prefix_of`
       TRACE "app refresh" ::
       (if m_hasGUI (instance w) then [ComponentManager_refreshViews] else [])).
Proof.
  intros Hui run. subst run. destruct message as [u a r]. cbn in Hui. subst u.
  cbn [handleMessage]. wp_handler e w.
  all: events_known; counts; split_and!; try done.
  all: intros Hr; try discriminate Hr; split; [done|].
  all: repeat match goal with H : m_hasGUI _ = _ |- _ => rewrite H end.
  all: by eexists.
Qed.

Lemma refresh_ui_only_witness :
  uiOnly (refreshUiOnly MessageRefresh_new) = true ∧
  count is_project_refresh
    (events (handleMessage (MsgRefresh (refreshUiOnly MessageRefresh_new)))
       env_ok (world0 true (Some (project_at "A")) [])) = 0.
Proof.
  split; [reflexivity|].
  exact (proj1 (refresh_ui_only env_ok (world0 true (Some (project_at "A")) [])
    (refreshUiOnly MessageRefresh_new) eq_refl)).
Defined.

(** X7: a refresh that is not UI-only, with a current project, refreshes
    the project at most once, and only after the status message was
    dispatched and the storage cache was cleared; when the handler
    returns it has made exactly one refresh call, the forced one exactly
    when the message asks for all, after exactly one status message. *)
Theorem refresh_project_once e w message project :
  uiOnly message = false →
  m_project (instance w) = Some project →
  let run := handleMessage (MsgRefresh message) in
  guarded_by is_cache_clear is_project_refresh false (events run e w) = true ∧
  guarded_by is_status is_project_refresh false (events run e w) = true ∧
  count is_project_refresh (events run e w) ≤ 1 ∧
  count is_force_refresh (events run e w) ≤ (if all message then 1 else 0) ∧
  (outcome run e w = Returned tt →
     count is_project_refresh (events run e w) = 1 ∧
     count is_force_refresh (events run e w) = (if all message then 1 else 0) ∧
     count is_status (events run e w) = 1).
Proof.
  intros Hui Hproject run. subst run. destruct message as [u a r]. cbn in Hui. subst u.
  cbn [handleMessage]. wp_handler e w; try congruence.
  all: events_known; counts; split_and!; try reflexivity; try lia.
  all: intros Hret; try discriminate Hret; split_and!; reflexivity.
Qed.

Lemma refresh_project_once_witness :
  m_project (instance (world0 false (Some (project_at "A")) [])) = Some (project_at "A") ∧
  count is_force_refresh
    (events (handleMessage (MsgRefresh {| uiOnly := false; all := true; reloadSettings := false |}))
       env_ok (world0 false (Some (project_at "A")) [])) = 1.
Proof.
  split; [reflexivity|].
  pose proof (refresh_project_once env_ok (world0 false (Some (project_at "A")) [])
    {| uiOnly := false; all := true; reloadSettings := false |} (project_at "A")
    eq_refl eq_refl) as (_ & _ & _ & _ & H).
  exact (proj1 (proj2 (H eq_refl))).
Defined.

(** X8: a refresh that is not UI-only, without a current project, never
    returns: it dereferences the null project, and when nothing raises it
    has by then announced the refresh and cleared the storage cache. *)
Theorem refresh_without_project e w message :
  uiOnly message = false →
  m_project (instance w) = None →
  let run := handleMessage (MsgRefresh message) in
  outcome run e w ≠ Returned tt ∧
  count is_project_refresh (events run e w) = 0 ∧
  (fault_free e →
     outcome run e w = Undefined ∧
     count is_status (events run e w) = 1 ∧
     count is_cache_clear (events run e w) = 1).
Proof.
  intros Hui Hproject run. subst run. destruct message as [u a r]. cbn in Hui. subst u.
  cbn [handleMessage]. wp_handler e w; try congruence.
  all: events_known; counts; split_and!; try done.
  all: intros He.
  all: repeat match goal with
       | H : throws _ ?tr ?c = true |- _ => rewrite (He tr c) in H; discriminate H
       end.
  all: split_and!; reflexivity.
Qed.

Lemma refresh_without_project_witness :
  m_project (instance (world0 true None [])) = None ∧
  outcome (handleMessage (MsgRefresh MessageRefresh_new)) env_ok (world0 true None []) =
  Undefined.
Proof.
  split; [reflexivity|].
  exact (proj1 (proj2 (proj2 (refresh_without_project env_ok (world0 true None [])
    MessageRefresh_new eq_refl eq_refl)) (λ tr c, eq_refl))).
Defined.

(** X9: nothing that raises during a refresh is caught or reported: the
    handler dispatches no error status, and as soon as one call raises
    the exception leaves the handler. *)
Theorem refresh_faults_escape e w message :
  let run := handleMessage (MsgRefresh message) in
  count is_error_status (events run e w) = 0 ∧
  raised e (trace w) (events run e w) ≤ 1 ∧
  (raised e (trace w) (events run e w) = 1 ↔ outcome run e w = Thrown).
Proof.
  intros run. subst run. destruct message as [u a r].
  cbn [handleMessage]. wp_handler e w.
  all: rewrite ?emitted_same; events_known; known_calls; counts.
  all: split_and!; try reflexivity; try lia.
  all: split; intros H; try discriminate H; try reflexivity; try lia.
Qed.

(** X10: the end of parsing, without a current project, dereferences the
    null project before any call is made.  With a current project the
    handler logs the statistics and then, with a GUI only, dispatches a
    UI-only refresh message: these are all its calls when it returns, and
    the first of them when a call raises.  Neither the handler nor the
    handling of the message it dispatches refreshes the project or clears
    the storage cache. *)
Theorem finished_parsing_refreshes_views_only e w :
  let run := handleMessage MsgFinishedParsing in
  let both := run;; handleMessage (MsgRefresh (refreshUiOnly MessageRefresh_new)) in
  (m_project (instance w) = None → outcome run e w = Undefined ∧ events run e w = []) ∧
  (m_project (instance w) ≠ None →
     events run e w `prefix_of`
       Project_logStats ::
       (if m_hasGUI (instance w)
        then [Message_dispatch (MsgRefresh (refreshUiOnly MessageRefresh_new))]
        else []) ∧
     match outcome run e w with
     | Returned _ =>
         events run e w =
           Project_logStats ::
           (if m_hasGUI (instance w)
            then [Message_dispatch (MsgRefresh (refreshUiOnly MessageRefresh_new))]
            else []) ∧
         uiOnly (refreshUiOnly MessageRefresh_new) = true
     | Thrown => raised e (trace w) (events run e w) = 1
     | Undefined => False
     end) ∧
  count is_project_refresh (events both e w) = 0 ∧
  count is_cache_clear (events both e w) = 0.
Proof.
  intros run both. subst run both.
  unfold refreshUiOnly, MessageRefresh_new. cbn [all reloadSettings]. split_and!.
  - intros Hp. wp_handler e w; try congruence.
    by rewrite emitted_same.
  - intros Hp. wp_handler e w; try congruence.
    all: events_known; known_calls.
    all: repeat match goal with H : m_hasGUI _ = _ |- _ => rewrite H end.
    all: split; [by eexists | try done].
  - wp_handler e w.
    all: rewrite ?emitted_same; events_known; counts; reflexivity.
  - wp_handler e w.
    all: rewrite ?emitted_same; events_known; counts; reflexivity.
Qed.

Lemma finished_parsing_refreshes_views_only_witness :
  m_project (instance (world0 true None [])) = None ∧
  outcome (handleMessage MsgFinishedParsing) env_ok (world0 true None []) = Undefined.
Proof.
  split; [reflexivity|].
  exact (proj1 (proj1 (finished_parsing_refreshes_views_only env_ok (world0 true None []))
    eq_refl)).
Defined.

End refreshing.

(** ** Loading: forced messages and faults *)

Section forced_and_faulty_loads.
Import RecentProjects.
Implicit Types (e : Env) (w : World) (m : MessageLoadProject) (p : FilePath).

(** X11: a message with the force-refresh flag, outside the trial build,
    loads nothing when there is no GUI or when the user never answers
    "No": whatever its path, no project is created, nothing is saved and
    the application object stays as it was; the forced refresh is for the
    project that is current. *)
Theorem forced_load_keeps_current_project e w m :
  forceRefresh m = true →
  isTrial e = false →
  m_hasGUI (instance w) = false ∨ (∀ tr, confirm_answer e tr ≠ 1%Z) →
  let run := handleMessage (MsgLoadProject m) in
  instance (final run e w) = instance w ∧
  count is_project_create (events run e w) = 0 ∧
  count is_settings_save (events run e w) = 0.
Proof.
  intros Hforce Htrial Hno run. subst run. destruct m as [p f]. cbn in Hforce. subst f.
  cbn [handleMessage]. wp_handler e w.
  all: rewrite ?Htrial in *; try discriminate.
  all: try (destruct Hno as [Hno|Hno]; [congruence|];
            match goal with H : (_ =? 1)%Z = true |- _ =>
              apply Z.eqb_eq in H; by apply Hno in H end).
  all: events_known; counts; split_and!; reflexivity.
Qed.

Lemma forced_load_keeps_current_project_witness :
  isTrial env_ok = false ∧
  m_hasGUI (instance (world0 false (Some (project_at "B")) [])) = false ∧
  instance (final (handleMessage (MsgLoadProject
      {| projectSettingsFilePath := "A"; forceRefresh := true |}))
    env_ok (world0 false (Some (project_at "B")) [])) =
  instance (world0 false (Some (project_at "B")) []).
Proof.
  split; [reflexivity|]. split; [reflexivity|].
  exact (proj1 (forced_load_keeps_current_project env_ok
    (world0 false (Some (project_at "B")) [])
    {| projectSettingsFilePath := "A"; forceRefresh := true |}
    eq_refl eq_refl (or_introl eq_refl))).
Defined.

(** X12: such a message with a non-empty path, when no project is current,
    never returns: the forced refresh dereferences the null project; when
    nothing raises, the refresh has been announced by then and no project
    has been created. *)
Theorem forced_load_without_project e w m :
  FilePath_empty (projectSettingsFilePath m) = false →
  forceRefresh m = true →
  isTrial e = false →
  m_hasGUI (instance w) = false ∨ (∀ tr, confirm_answer e tr ≠ 1%Z) →
  m_project (instance w) = None →
  let run := handleMessage (MsgLoadProject m) in
  outcome run e w ≠ Returned tt ∧
  (fault_free e →
     outcome run e w = Undefined ∧
     count is_status (events run e w) = 1 ∧
     count is_project_create (events run e w) = 0).
Proof.
  intros Hempty Hforce Htrial Hno Hproject run. subst run.
  destruct m as [p f]. cbn in Hforce, Hempty. subst f.
  cbn [handleMessage]. wp_handler e w; try congruence.
  all: rewrite ?Htrial in *; try discriminate.
  all: try (destruct Hno as [Hno|Hno]; [congruence|];
            match goal with H : (_ =? 1)%Z = true |- _ =>
              apply Z.eqb_eq in H; by apply Hno in H end).
  all: events_known; counts; split; [done|].
  all: intros He.
  all: repeat match goal with
       | H : throws _ ?tr ?c = true |- _ => rewrite (He tr c) in H; discriminate H
       end.
  all: split_and!; reflexivity.
Qed.

Lemma forced_load_without_project_witness :
  FilePath_empty "A" = false ∧
  m_project (instance (world0 false None [])) = None ∧
  outcome (handleMessage (MsgLoadProject
      {| projectSettingsFilePath := "A"; forceRefresh := true |}))
    env_ok (world0 false None []) = Undefined.
Proof.
  split; [reflexivity|]. split; [reflexivity|].
  exact (proj1 (proj2 (forced_load_without_project env_ok (world0 false None [])
    {| projectSettingsFilePath := "A"; forceRefresh := true |}
    eq_refl eq_refl eq_refl (or_introl eq_refl) eq_refl) (λ tr c, eq_refl))).
Defined.

(** X13: a fault while the settings or the style are reloaded is not
    caught: the exception leaves the handler of [LoadProject], no status
    message is dispatched, no project is created or refreshed and the
    application object stays as it was. *)
Theorem reload_fault_escapes e w m :
  outcome reload e w = Thrown →
  let run := handleMessage (MsgLoadProject m) in
  outcome run e w = Thrown ∧
  count is_status (events run e w) = 0 ∧
  count is_project_create (events run e w) = 0 ∧
  count is_project_refresh (events run e w) = 0 ∧
  instance (final run e w) = instance w.
Proof.
  intros Hthrown run.
  assert (run e w = reload e w) as Heq.
  { subst run. cbn [handleMessage]. rewrite handleMessage_LoadProject_reload.
    unfold outcome in Hthrown. unfold mbind, M_bind.
    destruct (reload e w) as [[[]| |] w1]; cbn in Hthrown; congruence. }
  unfold events, final, outcome. rewrite Heq.
  fold (final reload e w). fold (events reload e w). fold (outcome reload e w).
  destruct (reload_frame e w) as (Hi & _).
  split_and!; try done; by apply reload_counts.
Qed.

Lemma reload_fault_escapes_witness :
  outcome reload (env_throwing is_settings_load) (world0 true None []) = Thrown ∧
  outcome (handleMessage (MsgLoadProject
      {| projectSettingsFilePath := "A"; forceRefresh := false |}))
    (env_throwing is_settings_load) (world0 true None []) = Thrown.
Proof.
  split; [reflexivity|].
  exact (proj1 (reload_fault_escapes (env_throwing is_settings_load) (world0 true None [])
    {| projectSettingsFilePath := "A"; forceRefresh := false |} eq_refl)).
Defined.

(** X14: with a GUI the recent-projects list is updated before the
    project is created, so that a load that fails has updated it all the
    same: whatever the collaborators raise, the list in memory has the
    path at its front, the settings are saved exactly once, and the
    settings file holds the new list as soon as that save returned. *)
Theorem failed_load_still_recent e w p :
  collaborator_faults_only e →
  m_hasGUI (instance w) = true →
  let run := createAndLoadProject p in
  let loading := Message_dispatch (MsgStatus
    {| status := "Loading Project: " +:+ FilePath_str p;
       isError := false; showLoader := true |}) in
  getRecentProjects (appSettings (final run e w)) =
    update p (getRecentProjects (appSettings w)) ∧
  count is_settings_save (events run e w) = 1 ∧
  guarded_by is_settings_save is_project_create false (events run e w) = true ∧
  (throws e (trace w ++ [loading]) ApplicationSettings_save = false →
     settingsFile (final run e w) = appSettings (final run e w)).
Proof.
  intros He Hgui run loading. subst run loading.
  wp_handler e w; try congruence.
  all: events_known; counts; split_and!; try reflexivity.
  all: intros Hsave; try reflexivity; congruence.
Qed.

Lemma failed_load_still_recent_witness :
  collaborator_faults_only (env_throwing is_project_create) ∧
  m_hasGUI (instance (world0 true None ["B"])) = true ∧
  count is_error_status (events (createAndLoadProject "A")
    (env_throwing is_project_create) (world0 true None ["B"])) = 1 ∧
  getRecentProjects (settingsFile (final (createAndLoadProject "A")
    (env_throwing is_project_create) (world0 true None ["B"]))) = ["A"; "B"].
Proof.
  split; [exact env_throwing_project_create_collaborator|].
  split; [reflexivity|]. split; [vm_compute; reflexivity|].
  pose proof (failed_load_still_recent (env_throwing is_project_create)
    (world0 true None ["B"]) "A" env_throwing_project_create_collaborator eq_refl)
    as (H1 & _ & _ & H2).
  rewrite (H2 eq_refl). exact H1.
Defined.

(** X15: whatever raises, [createAndLoadProject] creates at most one
    project, and only after the storage cache was cleared; it touches the
    components, the title and the start screen only after the project was
    created; it refreshes no project and asks the user nothing. *)
Theorem createAndLoadProject_order e w p :
  let run := createAndLoadProject p in
  count is_project_create (events run e w) ≤ 1 ∧
  guarded_by is_cache_clear is_project_create false (events run e w) = true ∧
  guarded_by is_project_create is_presentation false (events run e w) = true ∧
  count is_project_refresh (events run e w) = 0 ∧
  count is_confirm (events run e w) = 0.
Proof.
  intros run. subst run. wp_handler e w.
  all: events_known; counts; split_and!; try reflexivity; lia.
Qed.

End forced_and_faulty_loads.

(** ** Startup and settings *)

Section startup_and_settings.
Implicit Types (e : Env) (w : World).

(** X16: whatever raises, [createInstance] starts the scheduler loop and
    the message loop only after the settings were loaded.  Without a view
    factory its only call into the user interface can be the saving of
    the layout by the destructor of the earlier application object: there
    is none when that object had no GUI or is not released.  When
    [createInstance] returns, the application has a GUI exactly when a
    view factory was given and no current project, both loops were
    started, and the loops were stopped before (by the destructor of the
    earlier object) exactly when that object was released. *)
Theorem createInstance_order e w viewFactory networkFactory :
  let run := createInstance viewFactory networkFactory in
  let released := releases_previous e (trace w ++ before_assignment w) in
  guarded_by is_settings_load is_loop_start false (events run e w) = true ∧
  guarded_by is_loop_stop is_save_layout false (events run e w) = true ∧
  (viewFactory = false →
     count is_ui_call (events run e w) = count is_save_layout (events run e w) ∧
     count is_ui_call (events run e w) ≤ 1 ∧
     (m_hasGUI (instance w) = false ∨ (∀ tr, releases_previous e tr = false) →
        count is_ui_call (events run e w) = 0)) ∧
  (outcome run e w = Returned tt →
     instance (final run e w) = {| m_hasGUI := viewFactory; m_project := None |} ∧
     count is_loop_start (events run e w) = 2 ∧
     count is_loop_stop (events run e w) = (if released then 2 else 0) ∧
     count is_save_layout (events run e w) =
       (if released && m_hasGUI (instance w) then 1 else 0) ∧
     guarded_by is_loop_stop is_loop_start (negb released) (events run e w) = true).
Proof.
  intros run released. subst run released.
  unfold before_assignment, loadSettings_calls. cbn [app].
  wp_handler e w.
  all: rewrite <- ?app_assoc in *; cbn [app] in *.
  all: repeat match goal with H : releases_previous _ _ = _ |- _ => rewrite H in * end.
  all: repeat match goal with H : m_hasGUI _ = _ |- _ => rewrite H in * end.
  all: events_known; counts; cbn [andb negb].
  all: split_and!; try reflexivity.
  all: try (intros H; try discriminate H; split_and!; try reflexivity; try lia).
  all: try lia.
  all: intros [Hnone|Hnone]; [discriminate Hnone|].
  all: match goal with
       | Hr : releases_previous _ ?tr = true |- _ =>
           rewrite (Hnone tr) in Hr; discriminate Hr
       end.
Qed.

Lemma createInstance_order_witness :
  outcome (createInstance false true) env_ok (world0 true (Some (project_at "A")) []) =
    Returned tt ∧
  instance (final (createInstance false true) env_ok
    (world0 true (Some (project_at "A")) [])) =
  {| m_hasGUI := false; m_project := None |} ∧
  count is_save_layout (events (createInstance false true) env_ok
    (world0 true (Some (project_at "A")) [])) = 1.
Proof.
  split; [reflexivity|].
  pose proof (proj2 (proj2 (proj2 (createInstance_order env_ok
    (world0 true (Some (project_at "A")) []) false true))) eq_refl) as (H1 & _ & _ & H2 & _).
  split; [exact H1 | exact H2].
Defined.

(** X17: [loadSettings] makes its calls in the order load of the
    settings, load of the colour scheme, load of the style settings: all
    three when it returns, the first ones up to the call that raises
    otherwise.  The colour scheme is the one that the settings name after
    they were loaded from the settings file, not the one the settings in
    memory named before; when the load of the settings raises, no style
    is loaded. *)
Theorem loadSettings_scheme_of_file e w :
  events loadSettings e w `prefix_of` loadSettings_calls w ∧
  match outcome loadSettings e w with
  | Returned _ => events loadSettings e w = loadSettings_calls w
  | Thrown => raised e (trace w) (events loadSettings e w) = 1
  | Undefined => False
  end ∧
  instance (final loadSettings e w) = instance w ∧
  settingsFile (final loadSettings e w) = settingsFile w ∧
  (if throws e (trace w) ApplicationSettings_load
   then events loadSettings e w = [ApplicationSettings_load]
   else appSettings (final loadSettings e w) = settingsFile w).
Proof.
  wp_handler e w.
  all: events_known; known_calls; split_and!; try reflexivity.
  all: by eexists.
Qed.

End startup_and_settings.

(** ** Faults while saving, and loading followed by refreshing *)

Section save_fault_and_composition.
Import RecentProjects.
Implicit Types (e : Env) (w : World) (p : FilePath).

(** X18: when, with a GUI, the save of the settings raises, the exception
    leaves [updateRecentProjects] with the list in memory already updated
    and the recent-projects menu not updated. *)
Theorem updateRecentProjects_save_fault e w p :
  m_hasGUI (instance w) = true →
  throws e (trace w) ApplicationSettings_save = true →
  let run := updateRecentProjects p in
  outcome run e w = Thrown ∧
  getRecentProjects (appSettings (final run e w)) =
    update p (getRecentProjects (appSettings w)) ∧
  count is_menu_update (events run e w) = 0.
Proof.
  intros Hgui Hsave run. subst run. wp_handler e w; try congruence.
  events_known. counts. split_and!; reflexivity.
Qed.

Lemma updateRecentProjects_save_fault_witness :
  m_hasGUI (instance (world0 true None ["B"])) = true ∧
  throws (env_throwing is_settings_save) (trace (world0 true None ["B"]))
    ApplicationSettings_save = true ∧
  outcome (updateRecentProjects "A")
    (env_throwing is_settings_save) (world0 true None ["B"]) = Thrown.
Proof.
  split; [reflexivity|]. split; [reflexivity|].
  exact (proj1 (updateRecentProjects_save_fault (env_throwing is_settings_save)
    (world0 true None ["B"]) "A" eq_refl eq_refl)).
Defined.

(** X19: when nothing raises, a [LoadProject] message with a non-empty
    path whose force flag does not count, followed by a refresh that is
    not UI-only, returns: the project of the path is current and is
    refreshed exactly once, by the forced refresh exactly when the
    refresh message asks for all. *)
Theorem load_then_refresh e w m message :
  fault_free e →
  FilePath_empty (projectSettingsFilePath m) = false →
  forceRefresh m && negb (isTrial e) = false →
  uiOnly message = false →
  let both := handleMessage (MsgLoadProject m);; handleMessage (MsgRefresh message) in
  outcome both e w = Returned tt ∧
  is_other_project (instance (final both e w)) (projectSettingsFilePath m) = false ∧
  count is_project_refresh (events both e w) = 1 ∧
  count is_force_refresh (events both e w) = (if all message then 1 else 0).
Proof.
  intros He Hempty Hforce Hui both. subst both.
  destruct m as [p f], message as [u a r]. cbn in Hempty, Hforce, Hui. subst u.
  wp_handler e w; try congruence.
  all: repeat match goal with
       | H : is_other_project _ _ = _ |- _ =>
           unfold is_other_project in H; cbn [m_project] in H
       end.
  all: repeat match goal with H : m_project _ = _ |- _ => rewrite H in * end.
  all: try discriminate.
  all: events_known; counts; split_and!; try reflexivity.
  all: try (unfold is_other_project; cbn [m_project getProjectSettingsFilePath];
            rewrite ?bool_decide_true by done; done).
  all: unfold is_other_project; cbn [m_project];
       repeat match goal with H : m_project _ = _ |- _ => rewrite H end; done.
Qed.

Lemma load_then_refresh_witness :
  fault_free env_ok ∧
  FilePath_empty "A" = false ∧
  outcome (handleMessage (MsgLoadProject
             {| projectSettingsFilePath := "A"; forceRefresh := false |});;
           handleMessage (MsgRefresh MessageRefresh_new))
    env_ok (world0 false None []) = Returned tt.
Proof.
  split; [by intros tr c|]. split; [reflexivity|].
  exact (proj1 (load_then_refresh env_ok (world0 false None [])
    {| projectSettingsFilePath := "A"; forceRefresh := false |} MessageRefresh_new
    (λ tr c, eq_refl) eq_refl eq_refl eq_refl)).
Defined.

End save_fault_and_composition.
